(** * Genesis call-analysis services: a shallow embedding and its properties

    The development embeds the core of the two event-driven services of the
    repository:

    - [sentiment-service]: [services/sentiment_service.py] (the
      [SentimentAnalyzer] class), [services/kafka_service.py] and [main.py];
    - [transcription-service]: [services/whisper_service.py],
      [services/kafka_service.py] and [main.py].

    Modelling conventions.

    - Python [float] values (scores, times, probabilities) are exact rationals
      [Q]; equality of numeric results is therefore stated with [==].  Binary
      floating-point rounding error is outside the model.
    - Python [str] values are [string]s; a character is an 8-bit code point.
    - A call that may raise is a value of [PyResult]: [Ok v] or [Raised e],
      where [e] ranges over subclasses of Python's [Exception].
    - External collaborators (the HuggingFace pipeline, VADER, Whisper, MinIO,
      the Kafka client, the clock and the UUID generator) are function
      arguments of the definitions that call them. *)

From Stdlib Require Import QArith ZArith List String Ascii Bool Lia Lqa.
From Stdlib Require Import Sorted Qround.
Import ListNotations.

Local Open Scope string_scope.
Local Open Scope list_scope.
Local Open Scope Q_scope.

(* ================================================================== *)
(** * Python numerics on rationals *)
(* ================================================================== *)

Module PyNum.

(** [x < y] as a boolean. *)
Definition Qltb (x y : Q) : bool := negb (Qle_bool y x).

(** Python's [min(a, b)]: the first of the smallest arguments. *)
Definition py_min (a b : Q) : Q := if Qltb b a then b else a.

(** Python's [max(a, b)]: the first of the largest arguments. *)
Definition py_max (a b : Q) : Q := if Qltb a b then b else a.

(** Python's [abs]. *)
Definition py_abs (x : Q) : Q := if Qltb x 0 then - x else x.

(** Nearest integer, ties to the even one (the rounding of [round]). *)
Definition round_half_even (x : Q) : Z :=
  let n := Qnum x in
  let d := Z.pos (Qden x) in
  let f := (n / d)%Z in
  let r := (n mod d)%Z in
  match (2 * r ?= d)%Z with
  | Lt => f
  | Gt => (f + 1)%Z
  | Eq => if Z.even f then f else (f + 1)%Z
  end.

(** Python's [round(x, ndigits)] for a non-negative [ndigits]. *)
Definition py_round (x : Q) (ndigits : nat) : Q :=
  let scale := Pos.pow 10 (Pos.of_nat ndigits) in
  match ndigits with
  | O => inject_Z (round_half_even x)
  | S _ => Qmake (round_half_even (x * inject_Z (Z.pos scale))) scale
  end.

(** [sum(...)] of a list of numbers. *)
Definition py_sum (l : list Q) : Q := fold_left Qplus l 0.

End PyNum.
Import PyNum.

(* ================================================================== *)
(** * Python strings *)
(* ================================================================== *)

Module PyStr.

(** [str.isspace] on one character of the 8-bit range. *)
Definition isspace (c : ascii) : bool :=
  let n := nat_of_ascii c in
  ((9 <=? n) && (n <=? 13) || (28 <=? n) && (n <=? 32)
   || (n =? 133) || (n =? 160))%nat.

(** [str.lstrip()]. *)
Fixpoint lstrip (s : string) : string :=
  match s with
  | EmptyString => EmptyString
  | String c s' => if isspace c then lstrip s' else s
  end.

(** [str.rstrip()]: a character is kept when it is not a space or when
    something is kept after it. *)
Fixpoint rstrip (s : string) : string :=
  match s with
  | EmptyString => EmptyString
  | String c s' =>
      match rstrip s' with
      | EmptyString => if isspace c then EmptyString else String c EmptyString
      | r => String c r
      end
  end.

(** [str.strip()]. *)
Definition strip (s : string) : string := rstrip (lstrip s).

(** Truth value of a string: [not s] holds for the empty string. *)
Definition is_empty (s : string) : bool :=
  match s with EmptyString => true | _ => false end.

(** [s[:n]]. *)
Definition take (n : nat) (s : string) : string := substring 0 n s.

End PyStr.

(* ================================================================== *)
(** * Exceptions and results *)
(* ================================================================== *)

(** The exception classes the modelled code raises or catches; all are
    subclasses of [Exception]. *)
Inductive exn : Type :=
| RuntimeError (msg : string)
| KafkaError
| KeyError
| ValueError
| IndexError
| TypeError
| OtherException (msg : string).

Inductive PyResult (A : Type) : Type :=
| Ok (v : A)
| Raised (e : exn).
Arguments Ok {A} v.
Arguments Raised {A} e.

Definition is_ok {A} (r : PyResult A) : bool :=
  match r with Ok _ => true | Raised _ => false end.

(** [isinstance(e, KafkaError)]. *)
Definition is_kafka_error (e : exn) : bool :=
  match e with KafkaError => true | _ => false end.

(** Sequencing of calls that may raise. *)
Definition rbind {A B} (r : PyResult A) (k : A -> PyResult B) : PyResult B :=
  match r with Ok v => k v | Raised e => Raised e end.

(** [seq[i]] on a list: [IndexError] when [i] is out of range. *)
Definition getitem {A} (l : list A) (i : nat) : PyResult A :=
  match nth_error l i with
  | Some x => Ok x
  | None => Raised IndexError
  end.

(** [for x in xs: st = body st x], stopping at the first exception. *)
Fixpoint for_each {S X} (xs : list X) (body : S -> X -> PyResult S) (st : S)
  : PyResult S :=
  match xs with
  | [] => Ok st
  | x :: xs' => rbind (body st x) (for_each xs' body)
  end.

(** [range(lo, hi)]. *)
Definition range (lo hi : nat) : list nat := seq lo (hi - lo).

(** A Python [dict] with string keys, in insertion order. *)
Definition dict (V : Type) : Type := list (string * V).

(** [d[k] = v]: overwrite in place when the key exists, else append. *)
Fixpoint dict_set {V} (d : dict V) (k : string) (v : V) : dict V :=
  match d with
  | [] => [(k, v)]
  | (k', v') :: d' =>
      if String.eqb k' k then (k', v) :: d' else (k', v') :: dict_set d' k v
  end.

(** ** Computations over a process state that may raise

    A computation takes the state [S] of the process and returns a result or
    an exception together with the new state: what a Python exception leaves
    behind is the state at the point where it was raised. *)
Definition PyM (S A : Type) : Type := S -> PyResult A * S.

Definition ret {S A} (v : A) : PyM S A := fun w => (Ok v, w).

Definition raise {S A} (e : exn) : PyM S A := fun w => (Raised e, w).

Definition bind {S A B} (m : PyM S A) (k : A -> PyM S B) : PyM S B :=
  fun w =>
    match m w with
    | (Ok v, w') => k v w'
    | (Raised e, w') => (Raised e, w')
    end.

Definition lift {S A} (r : PyResult A) : PyM S A := fun w => (r, w).

Definition get_world {S} : PyM S S := fun w => (Ok w, w).

(** [try: body except Exception as e: handler e]. *)
Definition try_m {S A} (body : PyM S A) (handler : exn -> PyM S A)
  : PyM S A :=
  fun w =>
    match body w with
    | (Ok v, w') => (Ok v, w')
    | (Raised e, w') => handler e w'
    end.

(** [try: body finally: cleanup]. *)
Definition finally_m {S A} (body : PyM S A) (cleanup : PyM S unit)
  : PyM S A :=
  fun w =>
    match body w with
    | (r, w') =>
        match cleanup w' with
        | (Ok _, w'') => (r, w'')
        | (Raised e, w'') => (Raised e, w'')
        end
    end.

Declare Scope pym_scope.
Delimit Scope pym_scope with pym.
Notation "x <- m ;; k" := (bind m (fun x => k))
  (at level 61, m at next level, right associativity) : pym_scope.
Notation "m ;;; k" := (bind m (fun _ => k))
  (at level 61, right associativity) : pym_scope.

Inductive Level : Type := INFO | WARNING | ERROR.

(* ================================================================== *)
(** * sentiment-service: event models and configuration *)
(* ================================================================== *)

(** [config.py]: the settings the modelled code reads. *)
Module SentimentSettings.
Record t : Type := mk {
  kafka_output_topic : string;
  model_name : string;
  escalation_threshold : Q;
  neutral_range : Q * Q;
  service_name : string
}.

(** The defaults of the [Settings] class. *)
Definition default : t := {|
  kafka_output_topic := "calls.sentiment-analyzed";
  model_name := "cardiffnlp/twitter-roberta-base-sentiment-latest";
  escalation_threshold := 1 # 2;
  neutral_range := (- (1 # 5), 1 # 5);
  service_name := "sentiment-service"
|}.
End SentimentSettings.

(** A segment of the consumed [CallTranscribed] payload. *)
Module TranscriptionSegment.
Record t : Type := mk {
  startTime : Q;
  endTime : Q;
  text : string;
  speaker : option string;
  confidence : option Q
}.
End TranscriptionSegment.

(** A segment with its sentiment, as built by [analyze_segments]. *)
Module SentimentSegment.
Record t : Type := mk {
  startTime : Q;
  endTime : Q;
  text : string;
  sentiment : string;
  score : Q;
  confidence : Q;
  emotions : dict Q;
  speaker : option string
}.
End SentimentSegment.

(** The [escalation_details] dictionary when it is not empty. *)
Module EscalationDetails.
Record t : Type := mk {
  maxDrop : Q;
  startTime : Q;
  endTime : Q;
  startScore : Q;
  endScore : Q;
  duration : Q
}.
End EscalationDetails.

(** The consumed event of the sentiment service. *)
Module CallTranscribedIn.
Record payload : Type := mk_payload {
  callId : string;
  transcription : string;
  segments : list TranscriptionSegment.t;
  language : string
}.
Record t : Type := mk {
  eventId : string;
  eventType : string;
  aggregateId : string;
  aggregateType : string;
  version : Z;
  causationId : option string;
  correlationId : string;
  payload_of : payload
}.
End CallTranscribedIn.

(** The published event of the sentiment service. *)
Module SentimentAnalyzedEvent.
Record metadata : Type := mk_metadata {
  service : string;
  modelName : string;
  usedFallback : bool
}.
Record payload : Type := mk_payload {
  callId : string;
  overallSentiment : string;
  sentimentScore : Q;
  segments : list SentimentSegment.t;
  escalationDetected : bool;
  escalationDetails : option EscalationDetails.t;
  processingTimeMs : Q
}.
Record t : Type := mk {
  eventId : string;
  aggregateId : string;
  causationId : option string;
  correlationId : string;
  metadata_of : metadata;
  payload_of : payload
}.
End SentimentAnalyzedEvent.

(* ================================================================== *)
(** * sentiment-service: process state and its monad *)
(* ================================================================== *)

Module SentimentService.

Import PyStr.

(** One entry of the RoBERTa pipeline's output:
    [{"label": ..., "score": ...}]. *)
Record ScoreItem : Type := mk_item { label : string; item_score : Q }.

(** The HuggingFace pipeline as a capability: called on a text, it returns
    one list of label scores per input, or raises. *)
Definition Pipeline : Type := string -> PyResult (list (list ScoreItem)).

(** The dictionary returned by VADER's [polarity_scores]. *)
Record VaderScores : Type := mk_vader {
  neg : Q; neu : Q; pos : Q; compound : Q
}.

Definition Vader : Type := string -> PyResult VaderScores.

(** The attributes of a [SentimentAnalyzer] object. *)
Record SentimentAnalyzer : Type := mk_analyzer {
  roberta_pipeline : option Pipeline;
  vader_analyzer : Vader;
  model_loaded : bool;
  use_vader_fallback : bool
}.

(** [SentimentAnalyzer.__init__]. *)
Definition new_analyzer (vader : Vader) : SentimentAnalyzer := {|
  roberta_pipeline := None;
  vader_analyzer := vader;
  model_loaded := false;
  use_vader_fallback := false
|}.

(** The metadata a broker acknowledgment carries. *)
Record RecordMetadata : Type := mk_record_metadata {
  topic : string; partition : Z; offset : Z
}.

(** A [KafkaProducer]: [send] either raises or returns a future, whose
    [get(timeout=10)] either raises or returns the acknowledgment. *)
Record Producer : Type := mk_producer {
  send : string -> SentimentAnalyzedEvent.t
         -> PyResult (PyResult RecordMetadata)
}.

(** The attributes of a [KafkaService] object; the consumer is present or
    not. *)
Record KafkaService : Type := mk_kafka {
  consumer : bool;
  producer : option Producer
}.

Inductive Engine : Type := RoBERTa | VADER.

(** One invocation of an analysis engine: the engine, the text it was
    called on, and whether the invocation raised. *)
Record EngineCall : Type := mk_call {
  call_engine : Engine;
  call_text : string;
  call_raised : bool
}.

(** The state of the service process: the two global objects of [main.py],
    and the history of engine invocations, of calls of the publisher and
    of log records. *)
Record World : Type := mk_world {
  sentiment_analyzer : SentimentAnalyzer;
  kafka_service : KafkaService;
  engine_calls : list EngineCall;
  publish_calls : list SentimentAnalyzedEvent.t;
  log : list (Level * string)
}.

Definition M : Type -> Type := PyM World.

Definition logger (lvl : Level) (msg : string) : M unit :=
  fun w =>
    (Ok tt, {| sentiment_analyzer := sentiment_analyzer w;
               kafka_service := kafka_service w;
               engine_calls := engine_calls w;
               publish_calls := publish_calls w;
               log := log w ++ [(lvl, msg)] |}).

Definition note_engine_call (c : EngineCall) (w : World) : World :=
  {| sentiment_analyzer := sentiment_analyzer w;
     kafka_service := kafka_service w;
     engine_calls := engine_calls w ++ [c];
     publish_calls := publish_calls w;
     log := log w |}.

Definition note_publish_call (ev : SentimentAnalyzedEvent.t) (w : World)
  : World :=
  {| sentiment_analyzer := sentiment_analyzer w;
     kafka_service := kafka_service w;
     engine_calls := engine_calls w;
     publish_calls := publish_calls w ++ [ev];
     log := log w |}.

Definition set_analyzer (a : SentimentAnalyzer) (w : World) : World :=
  {| sentiment_analyzer := a;
     kafka_service := kafka_service w;
     engine_calls := engine_calls w;
     publish_calls := publish_calls w;
     log := log w |}.

Local Open Scope pym_scope.

(** [self.roberta_pipeline(text)]: calling [None] is a [TypeError]. *)
Definition call_roberta (text : string) : M (list (list ScoreItem)) :=
  fun w =>
    match roberta_pipeline (sentiment_analyzer w) with
    | None => (Raised TypeError, w)
    | Some p =>
        let r := p text in
        (r, note_engine_call (mk_call RoBERTa text (negb (is_ok r))) w)
    end.

(** [self.vader_analyzer.polarity_scores(text)]. *)
Definition call_vader (text : string) : M VaderScores :=
  fun w =>
    let r := vader_analyzer (sentiment_analyzer w) text in
    (r, note_engine_call (mk_call VADER text (negb (is_ok r))) w).

(* ---------------------------------------------------------------- *)
(** ** [services/sentiment_service.py] *)

(** [load_model].  [init] is the outcome of the body of the [try]: loading
    the tokenizer and the model and building the pipeline.  Of the log
    records of the method, the model keeps those that tell the outcome. *)
Definition load_model (init : PyResult Pipeline) : M unit :=
  fun w =>
    let a := sentiment_analyzer w in
    match init with
    | Ok p =>
        logger INFO "RoBERTa model loaded successfully"
          (set_analyzer {| roberta_pipeline := Some p;
                           vader_analyzer := vader_analyzer a;
                           model_loaded := true;
                           use_vader_fallback := use_vader_fallback a |} w)
    | Raised _ =>
        (logger ERROR "Failed to load RoBERTa model";;;
         logger WARNING "Falling back to VADER sentiment analyzer")
          (set_analyzer {| roberta_pipeline := roberta_pipeline a;
                           vader_analyzer := vader_analyzer a;
                           model_loaded := true;
                           use_vader_fallback := true |} w)
    end.

(** [_map_roberta_label_to_sentiment]: [mapping.get(label, default)]. *)
Definition _map_roberta_label_to_sentiment (l : string) : string * Q :=
  if String.eqb l "LABEL_0" then ("negative", - 1)
  else if String.eqb l "LABEL_1" then ("neutral", 0)
  else if String.eqb l "LABEL_2" then ("positive", 1)
  else ("neutral", 0).

(** [sentiment_values[label]]: a missing key is a [KeyError]. *)
Definition sentiment_values (l : string) : PyResult Q :=
  if String.eqb l "LABEL_0" then Ok (- 1)
  else if String.eqb l "LABEL_1" then Ok 0
  else if String.eqb l "LABEL_2" then Ok 1
  else Raised KeyError.

(** [max(scores, key=lambda x: x["score"])] on a non-empty list: the first
    item of the largest score. *)
Fixpoint max_by_score (best : ScoreItem) (rest : list ScoreItem)
  : ScoreItem :=
  match rest with
  | [] => best
  | x :: rest' =>
      if Qltb (item_score best) (item_score x)
      then max_by_score x rest'
      else max_by_score best rest'
  end.

(** [_calculate_weighted_score]: (sentiment, score, confidence). *)
Definition _calculate_weighted_score (st : SentimentSettings.t)
    (scores : list ScoreItem) : PyResult (string * Q * Q) :=
  rbind
    (for_each scores
       (fun acc item =>
          rbind (sentiment_values (label item))
                (fun v => Ok (acc + v * item_score item)))
       0)
    (fun weighted_score =>
       rbind
         (match scores with
          | [] => Raised ValueError
          | x :: rest => Ok (max_by_score x rest)
          end)
         (fun top_label =>
            let sentiment :=
              fst (_map_roberta_label_to_sentiment (label top_label)) in
            let confidence := item_score top_label in
            let neutral_range := SentimentSettings.neutral_range st in
            let sentiment :=
              if Qle_bool (fst neutral_range) weighted_score
                 && Qle_bool weighted_score (snd neutral_range)
              then "neutral"
              else if Qltb 0 weighted_score then "positive"
              else "negative" in
            Ok (sentiment, weighted_score, confidence))).

(** The result of one text analysis:
    (sentiment, score, confidence, emotions). *)
Definition Analysis : Type := string * Q * Q * dict Q.

(** [_analyze_with_roberta]. *)
Definition _analyze_with_roberta (st : SentimentSettings.t) (text : string)
  : M Analysis :=
  let max_length := 500%nat in
  let text :=
    if (max_length <? String.length text)%nat
    then take max_length text else text in
  outputs <- call_roberta text;;
  results <- lift (getitem outputs 0);;
  r <- lift (_calculate_weighted_score st results);;
  let '(sentiment, score, confidence) := r in
  let emotions :=
    fold_left (fun d item => dict_set d (label item) (item_score item))
              results [] in
  ret (sentiment, score, confidence, emotions).

(** [_analyze_with_vader]. *)
Definition _analyze_with_vader (text : string) : M Analysis :=
  scores <- call_vader text;;
  let c := compound scores in
  let '(sentiment, score) :=
    if Qle_bool (1 # 20) c then ("positive", py_min c 1)
    else if Qle_bool c (- (1 # 20)) then ("negative", py_max c (- 1))
    else ("neutral", 0) in
  let emotions :=
    [("positive", pos scores); ("neutral", neu scores);
     ("negative", neg scores)] in
  let confidence := py_abs c in
  ret (sentiment, score, confidence, emotions).

(** [analyze_text]. *)
Definition analyze_text (st : SentimentSettings.t) (text : string)
  : M Analysis :=
  if is_empty text || is_empty (strip text)
  then ret ("neutral", 0, 1, [])
  else
    try_m
      (w <- get_world;;
       if use_vader_fallback (sentiment_analyzer w)
       then _analyze_with_vader text
       else _analyze_with_roberta st text)
      (fun e =>
         logger ERROR "Error analyzing text";;;
         _analyze_with_vader text).

(** [analyze_segments]. *)
Fixpoint analyze_segments_loop (st : SentimentSettings.t)
    (segments : list TranscriptionSegment.t)
    (sentiment_segments : list SentimentSegment.t)
  : M (list SentimentSegment.t) :=
  match segments with
  | [] => ret sentiment_segments
  | segment :: rest =>
      r <- analyze_text st (TranscriptionSegment.text segment);;
      let '(sentiment, score, confidence, emotions) := r in
      let sentiment_segment := {|
        SentimentSegment.startTime := TranscriptionSegment.startTime segment;
        SentimentSegment.endTime := TranscriptionSegment.endTime segment;
        SentimentSegment.text := TranscriptionSegment.text segment;
        SentimentSegment.sentiment := sentiment;
        SentimentSegment.score := score;
        SentimentSegment.confidence := confidence;
        SentimentSegment.emotions := emotions;
        SentimentSegment.speaker := TranscriptionSegment.speaker segment
      |} in
      analyze_segments_loop st rest
        (sentiment_segments ++ [sentiment_segment])
  end.

Definition analyze_segments (st : SentimentSettings.t)
    (segments : list TranscriptionSegment.t) : M (list SentimentSegment.t) :=
  analyze_segments_loop st segments [].


(** [calculate_overall_sentiment]: (overall_sentiment, overall_score).
    The loop state is (total_duration, weighted_sum). *)
Definition calculate_overall_sentiment (st : SentimentSettings.t)
    (segments : list SentimentSegment.t) : string * Q :=
  match segments with
  | [] => ("neutral", 0)
  | _ =>
      let '(total_duration, weighted_sum) :=
        fold_left
          (fun (acc : Q * Q) segment =>
             let '(total_duration, weighted_sum) := acc in
             let duration :=
               SentimentSegment.endTime segment
               - SentimentSegment.startTime segment in
             if Qltb 0 duration
             then (total_duration + duration,
                   weighted_sum + SentimentSegment.score segment * duration)
             else (total_duration, weighted_sum))
          segments (0, 0) in
      if Qeq_bool total_duration 0 then ("neutral", 0)
      else
        let overall_score := weighted_sum / total_duration in
        let neutral_range := SentimentSettings.neutral_range st in
        let overall_sentiment :=
          if Qle_bool (fst neutral_range) overall_score
             && Qle_bool overall_score (snd neutral_range)
          then "neutral"
          else if Qltb 0 overall_score then "positive"
          else "negative" in
        (overall_sentiment, overall_score)
  end.

(** The state of the scan of [detect_escalation]:
    (max_drop, drop_start_idx, drop_end_idx). *)
Definition ScanState : Type := Q * nat * nat.

(** The body of the inner loop, for the pair [(i, j)]. *)
Definition scan_pair (scores : list Q) (i : nat) (s : ScanState) (j : nat)
  : PyResult ScanState :=
  rbind (getitem scores i) (fun si =>
  rbind (getitem scores j) (fun sj =>
    let drop := si - sj in
    let '(max_drop, _, _) := s in
    if Qltb max_drop drop then Ok (drop, i, j) else Ok s)).

(** The two nested [for] loops over [range(len(scores))] and
    [range(i + 1, len(scores))]. *)
Definition scan_drops (scores : list Q) : PyResult ScanState :=
  for_each (range 0 (List.length scores))
    (fun s i =>
       for_each (range (i + 1) (List.length scores)) (scan_pair scores i) s)
    (0, 0%nat, 0%nat).

(** [detect_escalation]: (escalation_detected, escalation_details), the
    empty dictionary being [None].  The [logger.info] of the detected case
    is issued by the model of the caller. *)
Definition detect_escalation (st : SentimentSettings.t)
    (segments : list SentimentSegment.t)
  : PyResult (bool * option EscalationDetails.t) :=
  if (List.length segments <? 2)%nat then Ok (false, None)
  else
    let scores := map SentimentSegment.score segments in
    rbind (scan_drops scores) (fun s =>
      let '(max_drop, drop_start_idx, drop_end_idx) := s in
      let escalation_detected :=
        Qle_bool (SentimentSettings.escalation_threshold st) max_drop in
      if escalation_detected then
        rbind (getitem segments drop_start_idx) (fun seg_start =>
        rbind (getitem segments drop_end_idx) (fun seg_end =>
        rbind (getitem scores drop_start_idx) (fun score_start =>
        rbind (getitem scores drop_end_idx) (fun score_end =>
          Ok (true,
              Some {|
                EscalationDetails.maxDrop := py_round max_drop 3;
                EscalationDetails.startTime :=
                  SentimentSegment.startTime seg_start;
                EscalationDetails.endTime :=
                  SentimentSegment.endTime seg_end;
                EscalationDetails.startScore := py_round score_start 3;
                EscalationDetails.endScore := py_round score_end 3;
                EscalationDetails.duration :=
                  py_round (SentimentSegment.endTime seg_end
                            - SentimentSegment.startTime seg_start) 2
              |})))))
      else Ok (false, None)).

(* ---------------------------------------------------------------- *)
(** ** [services/kafka_service.py] *)

(** [publish_sentiment].  [model_dump] is the outcome of
    [event.model_dump(mode='json')]; the dumped dictionary carries the
    fields of the event. *)
Definition publish_sentiment (st : SentimentSettings.t)
    (model_dump : SentimentAnalyzedEvent.t
                  -> PyResult SentimentAnalyzedEvent.t)
    (event : SentimentAnalyzedEvent.t) : M bool :=
  fun w0 =>
    let w := note_publish_call event w0 in
    match producer (kafka_service w) with
    | None =>
        (Raised (RuntimeError
           "Producer not initialized. Call initialize_producer() first."),
         w)
    | Some p =>
        let body :=
          rbind (model_dump event) (fun event_dict =>
          rbind (send p (SentimentSettings.kafka_output_topic st) event_dict)
                (fun future =>
          rbind future (fun record_metadata => Ok true))) in
        match body with
        | Ok b => (logger INFO "Published SentimentAnalyzed event";;; ret b) w
        | Raised e =>
            if is_kafka_error e
            then (logger ERROR "Failed to publish event";;; ret false) w
            else (logger ERROR "Unexpected error publishing event";;;
                  ret false) w
        end
    end.

(* ---------------------------------------------------------------- *)
(** ** [main.py] *)

(** What one run of [process_single_event] reads from its environment:
    the two readings of [time.time()], the value of [uuid4()] and the
    serializer of the published event. *)
Record Env : Type := mk_env {
  time_start : Q;
  time_end : Q;
  uuid4 : string;
  model_dump : SentimentAnalyzedEvent.t -> PyResult SentimentAnalyzedEvent.t
}.

(** [process_single_event]. *)
Definition process_single_event (st : SentimentSettings.t) (env : Env)
    (event : CallTranscribedIn.t) : M unit :=
  let start_time := time_start env in
  let call_id := CallTranscribedIn.aggregateId event in
  try_m
    (logger INFO
       ("Processing sentiment analysis for call " ++ call_id)%string;;;
     let segments :=
       CallTranscribedIn.segments (CallTranscribedIn.payload_of event) in
     match segments with
     | [] => logger WARNING ("No segments found for call " ++ call_id)%string
     | _ =>
         logger INFO "Analyzing segments";;;
         sentiment_segments <- analyze_segments st segments;;
         let '(overall_sentiment, overall_score) :=
           calculate_overall_sentiment st sentiment_segments in
         esc <- lift (detect_escalation st sentiment_segments);;
         let '(escalation_detected, escalation_details) := esc in
         (if escalation_detected
          then logger INFO "Escalation detected" else ret tt);;;
         let processing_time_ms := (time_end env - start_time) * 1000 in
         w <- get_world;;
         let sentiment_event := {|
           SentimentAnalyzedEvent.eventId := uuid4 env;
           SentimentAnalyzedEvent.aggregateId := call_id;
           SentimentAnalyzedEvent.causationId :=
             Some (CallTranscribedIn.eventId event);
           SentimentAnalyzedEvent.correlationId :=
             CallTranscribedIn.correlationId event;
           SentimentAnalyzedEvent.metadata_of := {|
             SentimentAnalyzedEvent.service :=
               SentimentSettings.service_name st;
             SentimentAnalyzedEvent.modelName :=
               SentimentSettings.model_name st;
             SentimentAnalyzedEvent.usedFallback :=
               use_vader_fallback (sentiment_analyzer w) |};
           SentimentAnalyzedEvent.payload_of := {|
             SentimentAnalyzedEvent.callId := call_id;
             SentimentAnalyzedEvent.overallSentiment := overall_sentiment;
             SentimentAnalyzedEvent.sentimentScore :=
               py_round overall_score 3;
             SentimentAnalyzedEvent.segments := sentiment_segments;
             SentimentAnalyzedEvent.escalationDetected :=
               escalation_detected;
             SentimentAnalyzedEvent.escalationDetails :=
               if escalation_detected then escalation_details else None;
             SentimentAnalyzedEvent.processingTimeMs :=
               py_round processing_time_ms 2 |}
         |} in
         success <- publish_sentiment st (model_dump env) sentiment_event;;
         if success
         then logger INFO ("Successfully processed call " ++ call_id)%string
         else logger ERROR
                ("Failed to publish sentiment event for call "
                 ++ call_id)%string
     end)
    (fun e => logger ERROR ("Error processing call " ++ call_id)%string).

End SentimentService.

(* ================================================================== *)
(** * transcription-service: models *)
(* ================================================================== *)

(** A raw Whisper segment: a dictionary with ['start'], ['end'], ['text']
    and, when present, ['avg_logprob'] and ['no_speech_prob']. *)
Module RawSegment.
Record t : Type := mk {
  start : Q;
  end_ : Q;
  text : string;
  avg_logprob : option Q;
  no_speech_prob : option Q
}.
End RawSegment.

(** The dictionary [_add_speaker_diarization] builds for a segment, and the
    [Segment] model of [models/events.py] with the same fields. *)
Module Segment.
Record t : Type := mk {
  speaker : string;
  startTime : Q;
  endTime : Q;
  text : string
}.
End Segment.

(** [models/transcription.py]: [ProcessedTranscription]. *)
Module ProcessedTranscription.
Record t : Type := mk {
  full_text : string;
  segments : list Segment.t;
  language : string;
  confidence : Q
}.
End ProcessedTranscription.

(** [models/events.py]: [CallReceivedEvent] with its payload. *)
Module CallReceivedEvent.
Record payload : Type := mk_payload {
  callId : string;
  callerId : string;
  agentId : string;
  channel : string;
  startTime : string;
  audioFileUrl : string;
  audioFormat : string;
  audioFileSize : Z
}.
Record t : Type := mk {
  eventId : string;
  eventType : string;
  aggregateId : string;
  aggregateType : string;
  timestamp : string;
  version : Z;
  causationId : option string;
  correlationId : string;
  payload_of : payload
}.
End CallReceivedEvent.

(** [models/events.py]: [CallTranscribedEvent] with its payload. *)
Module CallTranscribedEvent.
Record transcription_data : Type := mk_data {
  fullText : string;
  segments : list Segment.t;
  language : string;
  confidence : Q
}.
Record payload : Type := mk_payload {
  callId : string;
  transcription : transcription_data
}.
Record t : Type := mk {
  eventId : string;
  eventType : string;
  aggregateId : string;
  aggregateType : string;
  timestamp : string;
  version : Z;
  causationId : string;
  correlationId : string;
  payload_of : payload
}.
End CallTranscribedEvent.

(* ================================================================== *)
(** * transcription-service: [services/whisper_service.py] *)
(* ================================================================== *)

Module WhisperService.

Import PyStr.

(** [PAUSE_THRESHOLD = 1.5]. *)
Definition PAUSE_THRESHOLD : Q := 3 # 2.

(** The state carried by the loop of [_add_speaker_diarization]:
    (processed, current_speaker, last_end_time). *)
Definition DiarizeState : Type := list Segment.t * string * Q.

(** One iteration of the loop. *)
Definition diarize_step (s : DiarizeState) (segment : RawSegment.t)
  : DiarizeState :=
  let '(processed, current_speaker, last_end_time) := s in
  let start_time := RawSegment.start segment in
  let end_time := RawSegment.end_ segment in
  let text := strip (RawSegment.text segment) in
  let pause_duration := start_time - last_end_time in
  let current_speaker :=
    if Qltb PAUSE_THRESHOLD pause_duration
       && (0 <? List.length processed)%nat
    then (if String.eqb current_speaker "agent" then "customer" else "agent")
    else current_speaker in
  (processed ++ [ {| Segment.speaker := current_speaker;
                     Segment.startTime := py_round start_time 2;
                     Segment.endTime := py_round end_time 2;
                     Segment.text := text |} ],
   current_speaker, end_time).

(** [_add_speaker_diarization]. *)
Definition _add_speaker_diarization (segments : list RawSegment.t)
  : list Segment.t :=
  let '(processed, _, _) := fold_left diarize_step segments ([], "agent", 0) in
  processed.

(** The confidence of one segment, lines 136-146:
    [segment.get(key, default)] reads a missing key as the default. *)
Definition segment_confidence (segment : RawSegment.t) : Q :=
  let avg_logprob :=
    match RawSegment.avg_logprob segment with
    | Some v => v | None => - 1 end in
  let no_speech_prob :=
    match RawSegment.no_speech_prob segment with
    | Some v => v | None => 1 # 2 end in
  let logprob_confidence := py_max 0 (py_min 1 ((avg_logprob + 2) / 2)) in
  let speech_confidence := 1 - no_speech_prob in
  (logprob_confidence + speech_confidence) / 2.

(** [np.mean] of a non-empty list. *)
Definition np_mean (l : list Q) : Q :=
  py_sum l / inject_Z (Z.of_nat (List.length l)).

(** [_calculate_confidence]. *)
Definition _calculate_confidence (segments : list RawSegment.t) : Q :=
  match segments with
  | [] => 0
  | _ =>
      let confidences := map segment_confidence segments in
      let total_duration :=
        py_sum (map (fun s => RawSegment.end_ s - RawSegment.start s)
                    segments) in
      if Qeq_bool total_duration 0 then np_mean confidences
      else
        let weighted_sum :=
          py_sum (map (fun cs : Q * RawSegment.t =>
                         let (conf, seg) := cs in
                         conf * (RawSegment.end_ seg - RawSegment.start seg))
                      (combine confidences segments)) in
        let confidence := weighted_sum / total_duration in
        py_round confidence 3
  end.

End WhisperService.

(* ================================================================== *)
(** * transcription-service: Kafka publisher and event loop body *)
(* ================================================================== *)

Module TranscriptionService.

Import PyStr WhisperService.
Local Open Scope pym_scope.

(** The dictionary returned by Whisper's [model.transcribe]. *)
Record WhisperResult : Type := mk_whisper_result {
  result_text : string;
  result_segments : list RawSegment.t;
  result_language : string
}.

(** A loaded Whisper model as a capability. *)
Definition WhisperModel : Type := string -> PyResult WhisperResult.

Record RecordMetadata : Type := mk_record_metadata {
  topic : string; partition : Z; offset : Z
}.

(** A [KafkaProducer]: [send] either raises or returns a future, whose
    [get(timeout=10)] either raises or returns the acknowledgment. *)
Record Producer : Type := mk_producer {
  send : string -> CallTranscribedEvent.t
         -> PyResult (PyResult RecordMetadata)
}.

(** The process state: the singletons [whisper_service] and
    [kafka_service], the calls of the publisher, the temporary files
    removed and the log. *)
Record World : Type := mk_world {
  model : option WhisperModel;
  consumer : bool;
  producer : option Producer;
  publish_calls : list CallTranscribedEvent.t;
  removed_files : list string;
  log : list (Level * string)
}.

Definition M : Type -> Type := PyM World.

Definition logger (lvl : Level) (msg : string) : M unit :=
  fun w =>
    (Ok tt, {| model := model w; consumer := consumer w;
               producer := producer w;
               publish_calls := publish_calls w;
               removed_files := removed_files w;
               log := log w ++ [(lvl, msg)] |}).

Definition set_model (m : WhisperModel) : M unit :=
  fun w =>
    (Ok tt, {| model := Some m; consumer := consumer w;
               producer := producer w;
               publish_calls := publish_calls w;
               removed_files := removed_files w;
               log := log w |}).

Definition set_producer (p : Producer) : M unit :=
  fun w =>
    (Ok tt, {| model := model w; consumer := consumer w;
               producer := Some p;
               publish_calls := publish_calls w;
               removed_files := removed_files w;
               log := log w |}).

Definition note_publish_call (ev : CallTranscribedEvent.t) : M unit :=
  fun w =>
    (Ok tt, {| model := model w; consumer := consumer w;
               producer := producer w;
               publish_calls := publish_calls w ++ [ev];
               removed_files := removed_files w;
               log := log w |}).

Definition os_remove (path : string) : M unit :=
  fun w =>
    (Ok tt, {| model := model w; consumer := consumer w;
               producer := producer w;
               publish_calls := publish_calls w;
               removed_files := removed_files w ++ [path];
               log := log w |}).

(** What the service reads from its environment. *)
Record Env : Type := mk_env {
  (** [whisper.load_model(model_size)] *)
  whisper_load_model : PyResult WhisperModel;
  (** [KafkaProducer(...)] in [create_producer] *)
  new_producer : PyResult Producer;
  (** [minio_service.download_file] *)
  download_file : string -> PyResult string;
  (** [os.path.exists] *)
  path_exists : string -> bool;
  (** the default factories of [eventId] and [timestamp] *)
  uuid4 : string;
  utcnow : string;
  (** [event.model_dump(mode='json')] *)
  model_dump : CallTranscribedEvent.t -> PyResult CallTranscribedEvent.t
}.

(** [WhisperService.load_model]. *)
Definition load_model (env : Env) : M unit :=
  w <- get_world;;
  match model w with
  | Some _ => ret tt
  | None =>
      logger INFO "Loading Whisper model";;;
      match whisper_load_model env with
      | Ok m => set_model m;;; logger INFO "Whisper model loaded successfully"
      | Raised e => logger ERROR "Failed to load Whisper model";;; raise e
      end
  end.

(** [WhisperService.transcribe]. *)
Definition transcribe (env : Env) (audio_path : string)
  : M ProcessedTranscription.t :=
  load_model env;;;
  logger INFO ("Starting transcription for: " ++ audio_path)%string;;;
  try_m
    (w <- get_world;;
     result <- lift (match model w with
                     | Some m => m audio_path
                     | None => Raised TypeError
                     end);;
     logger INFO "Transcription complete";;;
     let processed_segments :=
       _add_speaker_diarization (result_segments result) in
     logger INFO "Processed segments with speaker diarization";;;
     let confidence := _calculate_confidence (result_segments result) in
     ret {| ProcessedTranscription.full_text := strip (result_text result);
            ProcessedTranscription.segments := processed_segments;
            ProcessedTranscription.language := result_language result;
            ProcessedTranscription.confidence := confidence |})
    (fun e => logger ERROR "Error during transcription";;; raise e).

(** [KafkaService.create_producer]. *)
Definition create_producer (env : Env) : M Producer :=
  logger INFO "Creating Kafka producer";;;
  match new_producer env with
  | Ok p => logger INFO "Kafka producer created successfully";;; ret p
  | Raised e => logger ERROR "Failed to create Kafka producer";;; raise e
  end.

Definition TOPIC_CALLS_TRANSCRIBED : string := "calls.transcribed".

(** [KafkaService.publish_call_transcribed]. *)
Definition publish_call_transcribed (env : Env)
    (event : CallTranscribedEvent.t) : M bool :=
  note_publish_call event;;;
  w <- get_world;;
  (match producer w with
   | None => p <- create_producer env;; set_producer p
   | Some _ => ret tt
   end);;;
  try_m
    (event_dict <- lift (model_dump env event);;
     logger INFO "Publishing CallTranscribed event";;;
     w <- get_world;;
     future <- lift (match producer w with
                     | Some p => send p TOPIC_CALLS_TRANSCRIBED event_dict
                     | None => Raised TypeError
                     end);;
     record_metadata <- lift future;;
     logger INFO "Event published successfully";;;
     ret true)
    (fun e =>
       if is_kafka_error e
       then logger ERROR "Kafka error publishing event";;; ret false
       else logger ERROR "Error publishing CallTranscribed event";;;
            ret false).

(** The body of the [async for] loop of [process_transcription_events],
    for one consumed event (lines 45-106 of [main.py]). *)
Definition process_transcription_event (env : Env)
    (event : CallReceivedEvent.t) : M unit :=
  try_m
    (logger INFO
       ("Processing call: " ++ CallReceivedEvent.aggregateId event)%string;;;
     let audio_url :=
       CallReceivedEvent.audioFileUrl (CallReceivedEvent.payload_of event) in
     let call_id :=
       CallReceivedEvent.callId (CallReceivedEvent.payload_of event) in
     logger INFO ("Downloading audio file from MinIO: " ++ audio_url)%string;;;
     audio_path <- lift (download_file env audio_url);;
     finally_m
       (logger INFO ("Transcribing audio file: " ++ audio_path)%string;;;
        transcription <- transcribe env audio_path;;
        let segments :=
          map (fun seg => {| Segment.speaker := Segment.speaker seg;
                             Segment.startTime := Segment.startTime seg;
                             Segment.endTime := Segment.endTime seg;
                             Segment.text := Segment.text seg |})
              (ProcessedTranscription.segments transcription) in
        let transcribed_event := {|
          CallTranscribedEvent.eventId := uuid4 env;
          CallTranscribedEvent.eventType := "CallTranscribed";
          CallTranscribedEvent.aggregateId := call_id;
          CallTranscribedEvent.aggregateType := "Call";
          CallTranscribedEvent.timestamp := utcnow env;
          CallTranscribedEvent.version := 1%Z;
          CallTranscribedEvent.causationId := CallReceivedEvent.eventId event;
          CallTranscribedEvent.correlationId :=
            CallReceivedEvent.correlationId event;
          CallTranscribedEvent.payload_of := {|
            CallTranscribedEvent.callId := call_id;
            CallTranscribedEvent.transcription := {|
              CallTranscribedEvent.fullText :=
                ProcessedTranscription.full_text transcription;
              CallTranscribedEvent.segments := segments;
              CallTranscribedEvent.language :=
                ProcessedTranscription.language transcription;
              CallTranscribedEvent.confidence :=
                ProcessedTranscription.confidence transcription |} |}
        |} in
        logger INFO
          ("Publishing CallTranscribed event for call: " ++ call_id)%string;;;
        success <- publish_call_transcribed env transcribed_event;;
        if success
        then logger INFO
               ("Successfully processed and published transcription for call: "
                ++ call_id)%string
        else logger ERROR
               ("Failed to publish transcription event for call: "
                ++ call_id)%string)
       (if path_exists env audio_path
        then os_remove audio_path;;;
             logger INFO ("Cleaned up temporary file: " ++ audio_path)%string
        else ret tt))
    (fun e =>
       logger ERROR
         ("Error processing call "
          ++ CallReceivedEvent.aggregateId event)%string).

End TranscriptionService.

(* ================================================================== *)
(** * Specification-side definitions *)
(* ================================================================== *)

Module Spec.

(** The sum of a sequence of numbers. *)
Fixpoint Qsum (l : list Q) : Q :=
  match l with
  | [] => 0
  | x :: l' => x + Qsum l'
  end.

(** [duration_i = endTime_i - startTime_i]. *)
Definition duration (s : SentimentSegment.t) : Q :=
  SentimentSegment.endTime s - SentimentSegment.startTime s.

(** The segments the sums of the aggregation rule range over. *)
Definition positive_segments (segs : list SentimentSegment.t)
  : list SentimentSegment.t :=
  filter (fun s => Qltb 0 (duration s)) segs.

(** [total_duration]: the sum of [duration_i] over the segments of
    positive duration. *)
Definition total_duration (segs : list SentimentSegment.t) : Q :=
  Qsum (map duration (positive_segments segs)).

(** [weighted_sum]: the sum of [score_i * duration_i] over the same
    segments. *)
Definition weighted_sum (segs : list SentimentSegment.t) : Q :=
  Qsum (map (fun s => SentimentSegment.score s * duration s)
            (positive_segments segs)).

(** The bucketing rule as the specification words it, for the band
    [(lo, hi)]: neutral inside the band, both edges included; positive
    above [hi]; negative below [lo]. *)
Definition bucketing_rule (band : Q * Q) (s : Q) (label : string) : Prop :=
  (fst band <= s /\ s <= snd band -> label = "neutral")
  /\ (snd band < s -> label = "positive")
  /\ (s < fst band -> label = "negative").

(** A label of the RoBERTa pipeline that [sentiment_values] knows. *)
Definition known_label (item : SentimentService.ScoreItem) : Prop :=
  SentimentService.label item = "LABEL_0"
  \/ SentimentService.label item = "LABEL_1"
  \/ SentimentService.label item = "LABEL_2".

End Spec.

(* ================================================================== *)
(** * Properties the theorems are stated with *)
(* ================================================================== *)

(** The ordered pairs [(i, j)] with [i < j < n]. *)
Definition is_pair (n : nat) (p : nat * nat) : Prop :=
  (fst p < snd p)%nat /\ (snd p < n)%nat.

(** Iteration order of the two nested loops: smallest [i], then smallest
    [j]. *)
Definition iter_before (p q : nat * nat) : Prop :=
  (fst p < fst q)%nat \/ (fst p = fst q /\ (snd p < snd q)%nat).

(** [drop = score_i - score_j]. *)
Definition drop (scores : list Q) (p : nat * nat) : Q :=
  nth (fst p) scores 0 - nth (snd p) scores 0.

(** [p] achieves the maximum drop and is the first pair to do so in
    iteration order. *)
Definition first_max_pair (scores : list Q) (p : nat * nat) : Prop :=
  is_pair (List.length scores) p
  /\ (forall q, is_pair (List.length scores) q -> drop scores q <= drop scores p)
  /\ (forall q, is_pair (List.length scores) q -> iter_before q p ->
                drop scores q < drop scores p).

(** The details reported for the earlier segment [sa] and the later segment
    [sb]: the drop, the earlier start time and score, the later end time and
    score, and the elapsed duration, rounded as the code rounds them. *)
Definition details_of (sa sb : SentimentSegment.t) : EscalationDetails.t := {|
  EscalationDetails.maxDrop :=
    py_round (SentimentSegment.score sa - SentimentSegment.score sb) 3;
  EscalationDetails.startTime := SentimentSegment.startTime sa;
  EscalationDetails.endTime := SentimentSegment.endTime sb;
  EscalationDetails.startScore := py_round (SentimentSegment.score sa) 3;
  EscalationDetails.endScore := py_round (SentimentSegment.score sb) 3;
  EscalationDetails.duration :=
    py_round (SentimentSegment.endTime sb - SentimentSegment.startTime sa) 2
|}.

(** Toggling the speaker label. *)
Definition toggle_speaker (speaker : string) : string :=
  if String.eqb speaker "agent" then "customer" else "agent".

(** The silence gap before [cur], after [prev]. *)
Definition silence_gap (prev cur : RawSegment.t) : Q :=
  RawSegment.start cur - RawSegment.end_ prev.

(** Every character of the string is a space. *)
Fixpoint all_spaces (s : string) : bool :=
  match s with
  | EmptyString => true
  | String c s' => PyStr.isspace c && all_spaces s'
  end.

(** The string starts with a space. *)
Definition starts_with_space (s : string) : bool :=
  match s with
  | EmptyString => false
  | String c _ => PyStr.isspace c
  end.

(** The string ends with a space. *)
Fixpoint ends_with_space (s : string) : bool :=
  match s with
  | EmptyString => false
  | String c EmptyString => PyStr.isspace c
  | String _ s' => ends_with_space s'
  end.

(** [t] is [s] without its leading and trailing spaces. *)
Definition trimmed_of (s t : string) : Prop :=
  exists pre post,
    s = (pre ++ t ++ post)%string
    /\ all_spaces pre = true /\ all_spaces post = true
    /\ starts_with_space t = false /\ ends_with_space t = false.

(** [z] is an integer nearest to [x]. *)
Definition nearest_integer (x : Q) (z : Z) : Prop :=
  inject_Z z - x <= 1 # 2 /\ x - inject_Z z <= 1 # 2.

(** [y] is [x] rounded to [k] decimals: a multiple of [10^-k] nearest to
    [x]. *)
Definition rounded_to (k : nat) (x y : Q) : Prop :=
  exists z : Z,
    y == inject_Z z / inject_Z (10 ^ Z.of_nat k)
    /\ nearest_integer (x * inject_Z (10 ^ Z.of_nat k)) z.

(** The aggregation rule of the sentiment aggregator on a sequence of
    (value, duration) items: the duration-weighted average over the items of
    positive duration, and 0 when their total duration is 0. *)
Definition aggregation_rule (items : list (Q * Q)) : Q :=
  let positive := filter (fun vd => Qltb 0 (snd vd)) items in
  let total := Spec.Qsum (map snd positive) in
  if Qeq_bool total 0 then 0
  else Spec.Qsum (map (fun vd => fst vd * snd vd) positive) / total.

(** Clamping into [0, 1]. *)
Definition clamp01 (x : Q) : Q :=
  if Qltb x 0 then 0 else if Qltb 1 x then 1 else x.

(** [segment.get('avg_logprob', -1.0)]. *)
Definition avg_logprob_of (s : RawSegment.t) : Q :=
  match RawSegment.avg_logprob s with Some v => v | None => - 1 end.

(** [segment.get('no_speech_prob', 0.5)]. *)
Definition no_speech_prob_of (s : RawSegment.t) : Q :=
  match RawSegment.no_speech_prob s with Some v => v | None => 1 # 2 end.

(** The duration of a raw segment. *)
Definition raw_duration (s : RawSegment.t) : Q :=
  RawSegment.end_ s - RawSegment.start s.

(** The (confidence, duration) items of a raw segment sequence. *)
Definition confidence_items (raw : list RawSegment.t) : list (Q * Q) :=
  map (fun s => (WhisperService.segment_confidence s, raw_duration s)) raw.

(** Every run of [m] relates the state before to the state after by [R]. *)
Definition preserves {S A} (R : S -> S -> Prop) (m : PyM S A) : Prop :=
  forall w, R w (snd (m w)).

(** The history [calls] of calls of the publisher is unchanged. *)
Definition silent {S E} (calls : S -> list E) (w w' : S) : Prop :=
  calls w' = calls w.

(** At most one event was handed to the publisher, and it satisfies [P]. *)
Definition emits {S E} (calls : S -> list E) (P : E -> Prop) (w w' : S)
  : Prop :=
  calls w' = calls w
  \/ exists out, calls w' = calls w ++ [out] /\ P out.

(** The analysis frame: the analyzer object, the Kafka service and the
    calls of the publisher are the same. *)
Definition analysis_frame (w w' : SentimentService.World) : Prop :=
  SentimentService.sentiment_analyzer w' = SentimentService.sentiment_analyzer w
  /\ SentimentService.kafka_service w' = SentimentService.kafka_service w
  /\ SentimentService.publish_calls w' = SentimentService.publish_calls w.

(** The envelope links of an event published for [event]. *)
Definition sentiment_links (event : CallTranscribedIn.t)
    (out : SentimentAnalyzedEvent.t) : Prop :=
  SentimentAnalyzedEvent.causationId out = Some (CallTranscribedIn.eventId event)
  /\ SentimentAnalyzedEvent.correlationId out
     = CallTranscribedIn.correlationId event
  /\ SentimentAnalyzedEvent.aggregateId out
     = CallTranscribedIn.aggregateId event.

(** The envelope links of an event published for [event]. *)
Definition transcription_links (event : CallReceivedEvent.t)
    (out : CallTranscribedEvent.t) : Prop :=
  CallTranscribedEvent.causationId out = CallReceivedEvent.eventId event
  /\ CallTranscribedEvent.correlationId out
     = CallReceivedEvent.correlationId event
  /\ CallTranscribedEvent.aggregateId out
     = CallReceivedEvent.callId (CallReceivedEvent.payload_of event).

(* ================================================================== *)
(** * Auxiliary definitions of the proofs *)
(* ================================================================== *)

(** The [if]/[elif]/[else] chain shared by lines 103-108 and 220-225. *)
Definition chain (band : Q * Q) (s : Q) : string :=
  if Qle_bool (fst band) s && Qle_bool s (snd band) then "neutral"
  else if Qltb 0 s then "positive" else "negative".

(** The body of the loop of [calculate_overall_sentiment]. *)
Definition agg_step (acc : Q * Q) (segment : SentimentSegment.t) : Q * Q :=
  let '(total_duration, weighted_sum) := acc in
  let duration :=
    SentimentSegment.endTime segment - SentimentSegment.startTime segment in
  if Qltb 0 duration
  then (total_duration + duration,
        weighted_sum + SentimentSegment.score segment * duration)
  else (total_duration, weighted_sum).

(** The pairs in the order the nested loops visit them. *)
Definition all_pairs (n : nat) : list (nat * nat) :=
  flat_map (fun i => map (pair i) (range (i + 1) n)) (range 0 n).

(** The update of the scan state at one pair. *)
Definition scan_update (scores : list Q) (s : SentimentService.ScanState)
    (p : nat * nat) : SentimentService.ScanState :=
  let '(max_drop, _, _) := s in
  if Qltb max_drop (drop scores p) then (drop scores p, fst p, snd p) else s.

(** The diarization as a recursion on the segments still to label: [first]
    tells whether nothing was processed yet. *)
Fixpoint diarize_from (first : bool) (speaker : string) (last_end_time : Q)
    (raw : list RawSegment.t) : list Segment.t :=
  match raw with
  | [] => []
  | r :: rest =>
      let speaker' :=
        if Qltb WhisperService.PAUSE_THRESHOLD
                (RawSegment.start r - last_end_time) && negb first
        then toggle_speaker speaker else speaker in
      {| Segment.speaker := speaker';
         Segment.startTime := py_round (RawSegment.start r) 2;
         Segment.endTime := py_round (RawSegment.end_ r) 2;
         Segment.text := PyStr.strip (RawSegment.text r) |}
      :: diarize_from false speaker' (RawSegment.end_ r) rest
  end.

(* ================================================================== *)
(** * Concrete inputs *)
(* ================================================================== *)

(** A configuration whose neutral band does not contain 0. *)
Definition settings_band_above_zero : SentimentSettings.t := {|
  SentimentSettings.kafka_output_topic := "calls.sentiment-analyzed";
  SentimentSettings.model_name :=
    "cardiffnlp/twitter-roberta-base-sentiment-latest";
  SentimentSettings.escalation_threshold := 1 # 2;
  SentimentSettings.neutral_range := (1 # 10, 3 # 10);
  SentimentSettings.service_name := "sentiment-service"
|}.

(** An analyzed segment with the given times and score. *)
Definition scored_segment (t0 t1 score : Q) : SentimentSegment.t := {|
  SentimentSegment.startTime := t0;
  SentimentSegment.endTime := t1;
  SentimentSegment.text := "text";
  SentimentSegment.sentiment := "neutral";
  SentimentSegment.score := score;
  SentimentSegment.confidence := 1;
  SentimentSegment.emotions := [];
  SentimentSegment.speaker := None
|}.

(** A configuration whose escalation threshold is 0. *)
Definition settings_zero_threshold : SentimentSettings.t := {|
  SentimentSettings.kafka_output_topic := "calls.sentiment-analyzed";
  SentimentSettings.model_name :=
    "cardiffnlp/twitter-roberta-base-sentiment-latest";
  SentimentSettings.escalation_threshold := 0;
  SentimentSettings.neutral_range := (- (1 # 5), 1 # 5);
  SentimentSettings.service_name := "sentiment-service"
|}.

(** The two segments of the specification's example: scores
    [0.9, -0.8] at times [(0, 5), (10, 15)]. *)
Definition example_segments : list SentimentSegment.t :=
  [scored_segment 0 5 (9 # 10); scored_segment 10 15 (- (8 # 10))].

(** A raw segment of zero duration with the default quality signals. *)
Definition zero_duration_segment : RawSegment.t := {|
  RawSegment.start := 1;
  RawSegment.end_ := 1;
  RawSegment.text := "hello";
  RawSegment.avg_logprob := None;
  RawSegment.no_speech_prob := None
|}.

(** A string of [n] copies of the character [c]. *)
Fixpoint replicate (n : nat) (c : ascii) : string :=
  match n with
  | O => EmptyString
  | S n' => String c (replicate n' c)
  end.

(** A state of the sentiment service whose pipeline answers every text with
    the same scores, for the examples below. *)
Definition constant_pipeline : SentimentService.Pipeline :=
  fun _ =>
    Ok [[SentimentService.mk_item "LABEL_0" (1 # 10);
         SentimentService.mk_item "LABEL_1" (2 # 10);
         SentimentService.mk_item "LABEL_2" (7 # 10)]].

(** A pipeline that raises on every text. *)
Definition failing_pipeline : SentimentService.Pipeline :=
  fun _ => Raised (OtherException "pipeline failure").

(** A VADER analyzer that finds every text neutral. *)
Definition neutral_vader : SentimentService.Vader :=
  fun _ => Ok (SentimentService.mk_vader 0 1 0 0).

(** The state of a process whose analyzer holds the pipeline [p] (or none)
    with the given fallback flag, and whose Kafka service holds the producer
    [prod] (or none). *)
Definition world_with (p : option SentimentService.Pipeline) (flag : bool)
    (prod : option SentimentService.Producer) : SentimentService.World := {|
  SentimentService.sentiment_analyzer := {|
    SentimentService.roberta_pipeline := p;
    SentimentService.vader_analyzer := neutral_vader;
    SentimentService.model_loaded := true;
    SentimentService.use_vader_fallback := flag |};
  SentimentService.kafka_service := {|
    SentimentService.consumer := true;
    SentimentService.producer := prod |};
  SentimentService.engine_calls := [];
  SentimentService.publish_calls := [];
  SentimentService.log := []
|}.

(** A producer whose broker acknowledges every record. *)
Definition acking_producer : SentimentService.Producer := {|
  SentimentService.send := fun topic _ =>
    Ok (Ok (SentimentService.mk_record_metadata topic 0%Z 0%Z))
|}.

(** The environment of a run of the sentiment service. *)
Definition sentiment_env : SentimentService.Env := {|
  SentimentService.time_start := 100;
  SentimentService.time_end := 101;
  SentimentService.uuid4 := "evt-new";
  SentimentService.model_dump := fun e => Ok e
|}.

(** A [CallTranscribed] event with the given segments. *)
Definition transcribed_event (segments : list TranscriptionSegment.t)
  : CallTranscribedIn.t := {|
  CallTranscribedIn.eventId := "evt-1";
  CallTranscribedIn.eventType := "CallTranscribed";
  CallTranscribedIn.aggregateId := "call-1";
  CallTranscribedIn.aggregateType := "Call";
  CallTranscribedIn.version := 1%Z;
  CallTranscribedIn.causationId := Some "evt-0";
  CallTranscribedIn.correlationId := "corr-1";
  CallTranscribedIn.payload_of := {|
    CallTranscribedIn.callId := "call-1";
    CallTranscribedIn.transcription := "Hello";
    CallTranscribedIn.segments := segments;
    CallTranscribedIn.language := "en" |}
|}.

(** A Whisper model that hears one segment in every file. *)
Definition one_segment_model : TranscriptionService.WhisperModel :=
  fun _ => Ok {|
    TranscriptionService.result_text := " Hello ";
    TranscriptionService.result_segments :=
      [RawSegment.mk 0 2 " Hello " (Some (- (1 # 5))) (Some (1 # 10))];
    TranscriptionService.result_language := "en" |}.

(** The environment of a run of the transcription service in which every
    collaborator succeeds. *)
Definition transcription_env : TranscriptionService.Env := {|
  TranscriptionService.whisper_load_model := Ok one_segment_model;
  TranscriptionService.new_producer :=
    Ok {| TranscriptionService.send := fun topic _ =>
            Ok (Ok (TranscriptionService.mk_record_metadata topic 0%Z 0%Z)) |};
  TranscriptionService.download_file := fun _ => Ok "/tmp/audio.wav";
  TranscriptionService.path_exists := fun _ => true;
  TranscriptionService.uuid4 := "evt-new";
  TranscriptionService.utcnow := "2024-01-01T00:00:00";
  TranscriptionService.model_dump := fun e => Ok e
|}.

(** The environment of a run in which no producer can be created. *)
Definition transcription_env_no_broker : TranscriptionService.Env := {|
  TranscriptionService.whisper_load_model := Ok one_segment_model;
  TranscriptionService.new_producer := Raised KafkaError;
  TranscriptionService.download_file := fun _ => Ok "/tmp/audio.wav";
  TranscriptionService.path_exists := fun _ => true;
  TranscriptionService.uuid4 := "evt-new";
  TranscriptionService.utcnow := "2024-01-01T00:00:00";
  TranscriptionService.model_dump := fun e => Ok e
|}.

(** The state of a transcription process before its first event. *)
Definition transcription_start : TranscriptionService.World := {|
  TranscriptionService.model := None;
  TranscriptionService.consumer := true;
  TranscriptionService.producer := None;
  TranscriptionService.publish_calls := [];
  TranscriptionService.removed_files := [];
  TranscriptionService.log := []
|}.

(** A [CallReceived] event whose aggregate id and payload call id are the
    given strings. *)
Definition received_event (aggregate_id call_id : string)
  : CallReceivedEvent.t := {|
  CallReceivedEvent.eventId := "evt-1";
  CallReceivedEvent.eventType := "CallReceived";
  CallReceivedEvent.aggregateId := aggregate_id;
  CallReceivedEvent.aggregateType := "Call";
  CallReceivedEvent.timestamp := "2024-01-01T00:00:00";
  CallReceivedEvent.version := 1%Z;
  CallReceivedEvent.causationId := None;
  CallReceivedEvent.correlationId := "corr-1";
  CallReceivedEvent.payload_of := {|
    CallReceivedEvent.callId := call_id;
    CallReceivedEvent.callerId := "caller";
    CallReceivedEvent.agentId := "agent-7";
    CallReceivedEvent.channel := "phone";
    CallReceivedEvent.startTime := "2024-01-01T00:00:00";
    CallReceivedEvent.audioFileUrl := "calls/audio.wav";
    CallReceivedEvent.audioFormat := "wav";
    CallReceivedEvent.audioFileSize := 1024%Z |}
|}.

(** The event handed to the publisher by a run of the transcription service
    on a [CallReceived] event. *)
Definition published_for (event : CallReceivedEvent.t)
  : list CallTranscribedEvent.t :=
  TranscriptionService.publish_calls
    (snd (TranscriptionService.process_transcription_event
            transcription_env event transcription_start)).

(** An output event of the sentiment service. *)
Definition sample_sentiment_event : SentimentAnalyzedEvent.t := {|
  SentimentAnalyzedEvent.eventId := "evt-2";
  SentimentAnalyzedEvent.aggregateId := "call-123";
  SentimentAnalyzedEvent.causationId := Some "evt-1";
  SentimentAnalyzedEvent.correlationId := "corr-1";
  SentimentAnalyzedEvent.metadata_of := {|
    SentimentAnalyzedEvent.service := "sentiment-service";
    SentimentAnalyzedEvent.modelName := "model";
    SentimentAnalyzedEvent.usedFallback := false |};
  SentimentAnalyzedEvent.payload_of := {|
    SentimentAnalyzedEvent.callId := "call-123";
    SentimentAnalyzedEvent.overallSentiment := "positive";
    SentimentAnalyzedEvent.sentimentScore := 1 # 2;
    SentimentAnalyzedEvent.segments := [];
    SentimentAnalyzedEvent.escalationDetected := false;
    SentimentAnalyzedEvent.escalationDetails := None;
    SentimentAnalyzedEvent.processingTimeMs := 1 |}
|}.

(* ================================================================== *)
(** * Facts about the numeric helpers *)
(* ================================================================== *)

Lemma Qltb_true (x y : Q) : Qltb x y = true <-> x < y.
Proof.
  unfold Qltb. rewrite negb_true_iff.
  split; intro H.
  - apply Qnot_le_lt. intro Hle. apply Qle_bool_iff in Hle. congruence.
  - destruct (Qle_bool y x) eqn:E; [|reflexivity].
    apply Qle_bool_iff in E. exfalso. apply (Qlt_not_le _ _ H E).
Qed.

Lemma Qltb_false (x y : Q) : Qltb x y = false <-> y <= x.
Proof.
  unfold Qltb. rewrite negb_false_iff. apply Qle_bool_iff.
Qed.

Lemma Qle_bool_false (x y : Q) : Qle_bool x y = false <-> y < x.
Proof.
  rewrite <- Qltb_true. unfold Qltb. rewrite negb_true_iff. reflexivity.
Qed.

Lemma Qeq_bool_false (x y : Q) : Qeq_bool x y = false <-> ~ x == y.
Proof.
  split.
  - intros H Heq. apply Qeq_bool_iff in Heq. congruence.
  - intro H. destruct (Qeq_bool x y) eqn:E; [|reflexivity].
    apply Qeq_bool_iff in E. contradiction.
Qed.

(** Case analysis on the boolean comparisons of the embedded code. *)
Ltac qcases :=
  repeat match goal with
  | |- context [Qle_bool ?a ?b] =>
      let E := fresh "E" in
      destruct (Qle_bool a b) eqn:E;
      [apply Qle_bool_iff in E | apply Qle_bool_false in E]
  | |- context [Qltb ?a ?b] =>
      let E := fresh "E" in
      destruct (Qltb a b) eqn:E;
      [apply Qltb_true in E | apply Qltb_false in E]
  | |- context [Qeq_bool ?a ?b] =>
      let E := fresh "E" in
      destruct (Qeq_bool a b) eqn:E;
      [apply Qeq_bool_iff in E | apply Qeq_bool_false in E]
  end.

Lemma py_sum_from (l : list Q) (a : Q) :
  fold_left Qplus l a == a + Spec.Qsum l.
Proof.
  revert a. induction l as [|x l IH]; intro a; simpl.
  - ring.
  - rewrite IH. ring.
Qed.

Lemma py_sum_Qsum (l : list Q) : py_sum l == Spec.Qsum l.
Proof. unfold py_sum. rewrite py_sum_from. ring. Qed.

(** [round_half_even] returns an integer nearest to its argument. *)
Lemma round_half_even_nearest (x : Q) : nearest_integer x (round_half_even x).
Proof.
  unfold nearest_integer, round_half_even.
  destruct x as [n d]. cbn [Qnum Qden].
  pose proof (Z.div_mod n (Z.pos d)) as Hdm.
  pose proof (Z.mod_pos_bound n (Z.pos d)) as Hb.
  assert (Hd : (0 < Z.pos d)%Z) by lia.
  specialize (Hdm ltac:(lia)). specialize (Hb Hd).
  set (f := (n / Z.pos d)%Z) in *. set (r := (n mod Z.pos d)%Z) in *.
  clearbody f r.
  assert (Hgoal : forall z,
             (0 <= 2 * (z * Z.pos d - n) <= Z.pos d
              \/ 0 <= 2 * (n - z * Z.pos d) <= Z.pos d)%Z ->
             inject_Z z - (n # d) <= 1 # 2 /\ (n # d) - inject_Z z <= 1 # 2).
  { intros z Hz.
    unfold Qle, Qminus, Qplus, Qopp, inject_Z; cbn [Qnum Qden].
    rewrite ?Pos.mul_1_l, ?Pos.mul_1_r. lia. }
  apply Hgoal. clear Hgoal. subst n.
  destruct (Z.compare_spec (2 * r) (Z.pos d)) as [E | E | E].
  - destruct (Z.even f); [right | left]; lia.
  - right. lia.
  - left. lia.
Qed.

(** [py_round x k] is [x] rounded to [k] decimals. *)
Lemma py_round_rounded (x : Q) (k : nat) : rounded_to k x (py_round x k).
Proof.
  unfold rounded_to, py_round.
  destruct k as [|k].
  - exists (round_half_even x). split.
    + simpl. field.
    + assert (H : x * inject_Z (10 ^ Z.of_nat 0) == x) by (simpl; ring).
      destruct (round_half_even_nearest x) as [H1 H2].
      unfold nearest_integer. rewrite H. split; assumption.
  - assert (Hs : Z.pos (10 ^ Pos.of_nat (S k)) = (10 ^ Z.of_nat (S k))%Z).
    { rewrite Pos2Z.inj_pow. f_equal. lia. }
    eexists. split.
    + rewrite <- Hs. rewrite Qmake_Qdiv. reflexivity.
    + rewrite <- Hs. apply round_half_even_nearest.
Qed.

(* ================================================================== *)
(** * The aggregator: [calculate_overall_sentiment] *)
(* ================================================================== *)

Section Aggregator.

Import SentimentService.

Lemma agg_loop_sums (segs : list SentimentSegment.t) (td ws : Q) :
  fst (fold_left agg_step segs (td, ws)) == td + Spec.total_duration segs
  /\ snd (fold_left agg_step segs (td, ws)) == ws + Spec.weighted_sum segs.
Proof.
  revert td ws.
  induction segs as [|s segs IH]; intros td ws.
  - unfold Spec.total_duration, Spec.weighted_sum. simpl. split; ring.
  - change (fold_left agg_step (s :: segs) (td, ws))
      with (fold_left agg_step segs (agg_step (td, ws) s)).
    assert (Hstep : agg_step (td, ws) s =
                    if Qltb 0 (Spec.duration s)
                    then (td + Spec.duration s,
                          ws + SentimentSegment.score s * Spec.duration s)
                    else (td, ws)) by reflexivity.
    rewrite Hstep.
    unfold Spec.total_duration, Spec.weighted_sum, Spec.positive_segments in *.
    simpl filter.
    destruct (Qltb 0 (Spec.duration s)).
    + destruct (IH (td + Spec.duration s)
                   (ws + SentimentSegment.score s * Spec.duration s))
        as [H1 H2].
      rewrite H1, H2. simpl. split; ring.
    + apply IH.
Qed.

Lemma total_duration_nonneg (segs : list SentimentSegment.t) :
  0 <= Spec.total_duration segs.
Proof.
  unfold Spec.total_duration, Spec.positive_segments.
  induction segs as [|s segs IH]; simpl.
  - apply Qle_refl.
  - destruct (Qltb 0 (Spec.duration s)) eqn:E; [|exact IH].
    apply Qltb_true in E. simpl. lra.
Qed.

Lemma total_duration_zero_iff (segs : list SentimentSegment.t) :
  Spec.total_duration segs == 0 <-> Spec.positive_segments segs = [].
Proof.
  unfold Spec.total_duration, Spec.positive_segments.
  induction segs as [|s segs IH]; simpl.
  - split; intro; [reflexivity | apply Qeq_refl].
  - destruct (Qltb 0 (Spec.duration s)) eqn:E; [|exact IH].
    apply Qltb_true in E. simpl.
    pose proof (total_duration_nonneg segs) as Hn.
    unfold Spec.total_duration, Spec.positive_segments in Hn.
    split; intro H; [exfalso; lra | discriminate].
Qed.

Lemma calculate_overall_sentiment_unfold st (segs : list SentimentSegment.t) :
  calculate_overall_sentiment st segs =
  let acc := fold_left agg_step segs (0, 0) in
  if Qeq_bool (fst acc) 0 then ("neutral", 0)
  else
    (chain (SentimentSettings.neutral_range st) (snd acc / fst acc),
     snd acc / fst acc).
Proof.
  destruct segs as [|s segs]; [reflexivity|].
  unfold calculate_overall_sentiment.
  fold agg_step.
  destruct (fold_left agg_step (s :: segs) (0, 0)) as [td ws].
  reflexivity.
Qed.

End Aggregator.


(** C2.  For every sequence of analyzed segments, the overall score returned
    by [calculate_overall_sentiment] is
    [(sum of score_i * duration_i) / (sum of duration_i)], both sums ranging
    only over the segments whose duration [endTime_i - startTime_i] is
    positive; whenever that total duration is 0 the result is
    [("neutral", 0.0)]; and the total is 0 for every input whose segments all
    have a non-positive duration, the empty input included. *)
Theorem C2_aggregate_duration_weighted
    (st : SentimentSettings.t) (segs : list SentimentSegment.t) :
  (Spec.total_duration segs == 0 ->
   SentimentService.calculate_overall_sentiment st segs = ("neutral", 0))
  /\ (~ Spec.total_duration segs == 0 ->
      snd (SentimentService.calculate_overall_sentiment st segs)
      == Spec.weighted_sum segs / Spec.total_duration segs)
  /\ (Forall (fun s => Spec.duration s <= 0) segs ->
      Spec.total_duration segs == 0).
Proof.
  rewrite calculate_overall_sentiment_unfold.
  destruct (agg_loop_sums segs 0 0) as [Htd Hws].
  rewrite Qplus_0_l in Htd, Hws.
  cbv zeta.
  split; [|split].
  - intro H0.
    assert (E : Qeq_bool (fst (fold_left agg_step segs (0, 0))) 0 = true)
      by (apply Qeq_bool_iff; rewrite Htd; exact H0).
    rewrite E. reflexivity.
  - intro Hne.
    assert (E : Qeq_bool (fst (fold_left agg_step segs (0, 0))) 0 = false)
      by (apply Qeq_bool_false; rewrite Htd; exact Hne).
    rewrite E. cbn [snd]. rewrite Htd, Hws. reflexivity.
  - intro Hall. apply total_duration_zero_iff.
    unfold Spec.positive_segments. clear Htd Hws.
    induction Hall as [|s l Hs _ IH]; simpl; [reflexivity|].
    apply Qltb_false in Hs. rewrite Hs. exact IH.
Qed.

(* ================================================================== *)
(** * Bucketing of scores into labels *)
(* ================================================================== *)

Section Bucketing.

Import SentimentService.

Lemma chain_bucketing_rule (band : Q * Q) (s : Q) :
  fst band <= 0 -> 0 <= snd band ->
  Spec.bucketing_rule band s (chain band s).
Proof.
  intros Hlo Hhi. unfold Spec.bucketing_rule, chain.
  qcases; simpl; repeat split; intros; try reflexivity; exfalso; lra.
Qed.

Lemma weighted_loop_known (scores : list ScoreItem) (acc : Q) :
  Forall Spec.known_label scores ->
  exists ws,
    for_each scores
      (fun acc item =>
         rbind (sentiment_values (label item))
               (fun v => Ok (acc + v * item_score item)))
      acc = Ok ws.
Proof.
  intro Hall. revert acc.
  induction Hall as [|item l Hk _ IH]; intro acc; simpl.
  - exists acc. reflexivity.
  - destruct Hk as [Hk | [Hk | Hk]]; rewrite Hk; simpl; apply IH.
Qed.

Lemma calculate_weighted_score_label st scores lbl ws conf :
  _calculate_weighted_score st scores = Ok (lbl, ws, conf) ->
  lbl = chain (SentimentSettings.neutral_range st) ws.
Proof.
  unfold _calculate_weighted_score, chain.
  destruct (for_each scores _ 0) as [w|e]; simpl; [|discriminate].
  destruct scores as [|x rest]; simpl; [discriminate|].
  intro H. injection H as H1 H2 H3. subst. reflexivity.
Qed.

Lemma calculate_overall_sentiment_label st segs :
  fst (calculate_overall_sentiment st segs)
  = chain (SentimentSettings.neutral_range st)
          (snd (calculate_overall_sentiment st segs))
  \/ calculate_overall_sentiment st segs = ("neutral", 0).
Proof.
  rewrite calculate_overall_sentiment_unfold. cbv zeta.
  destruct (Qeq_bool _ 0); [right; reflexivity | left; reflexivity].
Qed.

End Bucketing.

(** C5, amended.  When the configured neutral band [lo, hi] contains 0
    ([lo <= 0 <= hi]), the label is "neutral" for [lo <= score <= hi] (both
    edges included), "positive" for a score above [hi] and "negative" for a
    score below [lo]; and this one rule labels both the call-level overall
    score and the per-segment weighted score of [_calculate_weighted_score],
    which returns whenever the pipeline output is non-empty and has known
    labels only. *)
Theorem C5_bucketing_rule_band_around_zero (st : SentimentSettings.t) :
  fst (SentimentSettings.neutral_range st) <= 0 ->
  0 <= snd (SentimentSettings.neutral_range st) ->
  (forall segs,
      Spec.bucketing_rule (SentimentSettings.neutral_range st)
        (snd (SentimentService.calculate_overall_sentiment st segs))
        (fst (SentimentService.calculate_overall_sentiment st segs)))
  /\ (forall scores lbl ws conf,
        SentimentService._calculate_weighted_score st scores
        = Ok (lbl, ws, conf) ->
        Spec.bucketing_rule (SentimentSettings.neutral_range st) ws lbl)
  /\ (forall scores,
        scores <> [] -> Forall Spec.known_label scores ->
        exists lbl ws conf,
          SentimentService._calculate_weighted_score st scores
          = Ok (lbl, ws, conf)).
Proof.
  intros Hlo Hhi. split; [|split].
  - intro segs.
    destruct (calculate_overall_sentiment_label st segs) as [H | H].
    + rewrite H. apply chain_bucketing_rule; assumption.
    + rewrite H. simpl.
      unfold Spec.bucketing_rule.
      repeat split; intros; try reflexivity; exfalso; lra.
  - intros scores lbl ws conf H.
    apply calculate_weighted_score_label in H. subst lbl.
    apply chain_bucketing_rule; assumption.
  - intros scores Hne Hall.
    unfold SentimentService._calculate_weighted_score.
    destruct (weighted_loop_known scores 0 Hall) as [ws Hws].
    rewrite Hws. simpl.
    destruct scores as [|x rest]; [contradiction|].
    simpl. eauto.
Qed.

(** C5 at the default band [-0.2, 0.2] and one segment of score 0.2: the
    edge of the band is neutral. *)
Lemma C5_bucketing_rule_witness :
  Spec.bucketing_rule (SentimentSettings.neutral_range SentimentSettings.default)
    (snd (SentimentService.calculate_overall_sentiment SentimentSettings.default
            [scored_segment 0 5 (1 # 5)]))
    (fst (SentimentService.calculate_overall_sentiment SentimentSettings.default
            [scored_segment 0 5 (1 # 5)]))
  /\ fst (SentimentService.calculate_overall_sentiment SentimentSettings.default
            [scored_segment 0 5 (1 # 5)]) = "neutral".
Proof.
  split.
  - apply (C5_bucketing_rule_band_around_zero SentimentSettings.default).
    + simpl. lra.
    + simpl. lra.
  - reflexivity.
Defined.

(** C5 as stated fails for a band that does not contain 0: with the band
    [0.1, 0.3], the overall score 0.05 lies below the band and is labelled
    "positive". *)
Lemma C5_counterexample_band_above_zero :
  fst (SentimentService.calculate_overall_sentiment settings_band_above_zero
         [scored_segment 0 1 (1 # 20)]) = "positive"
  /\ ~ Spec.bucketing_rule
         (SentimentSettings.neutral_range settings_band_above_zero)
         (snd (SentimentService.calculate_overall_sentiment
                 settings_band_above_zero [scored_segment 0 1 (1 # 20)]))
         (fst (SentimentService.calculate_overall_sentiment
                 settings_band_above_zero [scored_segment 0 1 (1 # 20)])).
Proof.
  split; [reflexivity|].
  intros [_ [_ H]].
  assert (Hneg : fst (SentimentService.calculate_overall_sentiment
                        settings_band_above_zero [scored_segment 0 1 (1 # 20)])
                 = "negative")
    by (apply H; vm_compute; reflexivity).
  vm_compute in Hneg. discriminate.
Qed.

(* ================================================================== *)
(** * The escalation detector: [detect_escalation] *)
(* ================================================================== *)

Section Detector.

Import SentimentService.

Lemma getitem_nth {A} (l : list A) (i : nat) (d : A) :
  (i < List.length l)%nat -> getitem l i = Ok (nth i l d).
Proof.
  intro H. unfold getitem.
  rewrite (nth_error_nth' l d H). reflexivity.
Qed.

Lemma in_range (lo hi x : nat) : In x (range lo hi) <-> (lo <= x < hi)%nat.
Proof. unfold range. rewrite in_seq. lia. Qed.

Lemma scan_pair_update (scores : list Q) (i j : nat) (s : ScanState) :
  (i < List.length scores)%nat -> (j < List.length scores)%nat ->
  scan_pair scores i s j = Ok (scan_update scores s (i, j)).
Proof.
  intros Hi Hj. unfold scan_pair, scan_update, drop.
  rewrite (getitem_nth scores i 0 Hi), (getitem_nth scores j 0 Hj).
  simpl. destruct s as [[m a] b].
  destruct (Qltb m _); reflexivity.
Qed.

Lemma inner_loop_fold (scores : list Q) (i : nat) (js : list nat) (s : ScanState) :
  (i < List.length scores)%nat ->
  Forall (fun j => (j < List.length scores)%nat) js ->
  for_each js (scan_pair scores i) s
  = Ok (fold_left (scan_update scores) (map (pair i) js) s).
Proof.
  intros Hi Hjs. revert s.
  induction Hjs as [|j js Hj _ IH]; intro s; simpl.
  - reflexivity.
  - rewrite (scan_pair_update scores i j s Hi Hj). simpl. apply IH.
Qed.

Lemma outer_loop_fold (scores : list Q) (is_ : list nat) (s : ScanState) :
  Forall (fun i => (i < List.length scores)%nat) is_ ->
  for_each is_
    (fun s i =>
       for_each (range (i + 1) (List.length scores)) (scan_pair scores i) s)
    s
  = Ok (fold_left (scan_update scores)
          (flat_map (fun i => map (pair i) (range (i + 1) (List.length scores)))
                    is_)
          s).
Proof.
  intro His. revert s.
  induction His as [|i is_ Hi _ IH]; intro s; simpl.
  - reflexivity.
  - rewrite (inner_loop_fold scores i _ s Hi).
    + simpl. rewrite IH. rewrite fold_left_app. reflexivity.
    + apply Forall_forall. intros j Hj. apply in_range in Hj. lia.
Qed.

Lemma scan_drops_fold (scores : list Q) :
  scan_drops scores
  = Ok (fold_left (scan_update scores) (all_pairs (List.length scores))
                  (0, 0%nat, 0%nat)).
Proof.
  unfold scan_drops, all_pairs. apply outer_loop_fold.
  apply Forall_forall. intros i Hi. apply in_range in Hi. lia.
Qed.

(** The state after a run of updates: either nothing beat the initial
    maximum, or the state is the first pair of the largest drop. *)
Lemma scan_fold_spec (scores : list Q) (l : list (nat * nat))
    (m0 : Q) (a0 b0 : nat) :
  (fold_left (scan_update scores) l (m0, a0, b0) = (m0, a0, b0)
   /\ Forall (fun q => drop scores q <= m0) l)
  \/ (exists l1 p l2,
        l = l1 ++ p :: l2
        /\ fold_left (scan_update scores) l (m0, a0, b0)
           = (drop scores p, fst p, snd p)
        /\ m0 < drop scores p
        /\ Forall (fun q => drop scores q < drop scores p) l1
        /\ Forall (fun q => drop scores q <= drop scores p) l2).
Proof.
  revert m0 a0 b0.
  induction l as [|p l IH]; intros m0 a0 b0.
  - left. split; [reflexivity | constructor].
  - simpl fold_left.
    replace (scan_update scores (m0, a0, b0) p)
      with (if Qltb m0 (drop scores p)
            then (drop scores p, fst p, snd p) else (m0, a0, b0))
      by reflexivity.
    destruct (Qltb m0 (drop scores p)) eqn:E.
    + apply Qltb_true in E. right.
      destruct (IH (drop scores p) (fst p) (snd p))
        as [[Hst Hall] | (l1 & q & l2 & Hl & Hst & Hlt & H1 & H2)].
      * exists [], p, l. repeat split; try assumption. constructor.
      * exists (p :: l1), q, l2. subst l. repeat split; try assumption.
        -- lra.
        -- constructor; assumption.
    + apply Qltb_false in E.
      destruct (IH m0 a0 b0)
        as [[Hst Hall] | (l1 & q & l2 & Hl & Hst & Hlt & H1 & H2)].
      * left. split; [assumption | constructor; assumption].
      * right. exists (p :: l1), q, l2. subst l.
        repeat split; try assumption.
        constructor; [lra | assumption].
Qed.


Lemma in_all_pairs (n : nat) (p : nat * nat) :
  In p (all_pairs n) <-> is_pair n p.
Proof.
  unfold all_pairs, is_pair. rewrite in_flat_map. split.
  - intros (i & Hi & Hp). apply in_map_iff in Hp.
    destruct Hp as (j & <- & Hj). apply in_range in Hj. simpl. lia.
  - intros [H1 H2]. exists (fst p). split.
    + apply in_range. lia.
    + apply in_map_iff. exists (snd p). split.
      * destruct p; reflexivity.
      * apply in_range. lia.
Qed.

Lemma ssorted_app {A} (R : A -> A -> Prop) (l1 l2 : list A) :
  StronglySorted R l1 -> StronglySorted R l2 ->
  (forall x y, In x l1 -> In y l2 -> R x y) ->
  StronglySorted R (l1 ++ l2).
Proof.
  intros H1 H2 Hx.
  induction H1 as [|a l1 Hs IH Ha]; simpl; [exact H2|].
  constructor.
  - apply IH. intros x y Hin. apply Hx. right. exact Hin.
  - apply Forall_app. split; [exact Ha|].
    apply Forall_forall. intros y Hy. apply Hx; [left; reflexivity | exact Hy].
Qed.

Lemma ssorted_after {A} (R : A -> A -> Prop) (l1 l2 : list A) (p : A) :
  StronglySorted R (l1 ++ p :: l2) -> Forall (R p) l2.
Proof.
  induction l1 as [|a l1 IH]; simpl; intro H; inversion H; subst; auto.
Qed.

Lemma ssorted_seq (a k : nat) : StronglySorted lt (seq a k).
Proof.
  revert a. induction k as [|k IH]; intro a; simpl; constructor.
  - apply IH.
  - apply Forall_forall. intros x Hx. apply in_seq in Hx. lia.
Qed.

Lemma ssorted_row (i : nat) (js : list nat) :
  StronglySorted lt js -> StronglySorted iter_before (map (pair i) js).
Proof.
  induction 1 as [|j js Hs IH Hj]; simpl; constructor.
  - exact IH.
  - apply Forall_forall. intros q Hq. apply in_map_iff in Hq.
    destruct Hq as (j' & <- & Hj'). right. simpl. split; [reflexivity|].
    rewrite Forall_forall in Hj. apply Hj. exact Hj'.
Qed.

Lemma ssorted_rows (n : nat) (is_ : list nat) :
  StronglySorted lt is_ ->
  StronglySorted iter_before
    (flat_map (fun i => map (pair i) (range (i + 1) n)) is_).
Proof.
  induction 1 as [|i is_ Hs IH Hi]; simpl; [constructor|].
  apply ssorted_app.
  - apply ssorted_row. apply ssorted_seq.
  - exact IH.
  - intros x y Hx Hy. apply in_map_iff in Hx. destruct Hx as (j & <- & _).
    apply in_flat_map in Hy. destruct Hy as (i' & Hi' & Hy).
    apply in_map_iff in Hy. destruct Hy as (j' & <- & _).
    left. simpl. rewrite Forall_forall in Hi. apply Hi. exact Hi'.
Qed.

Lemma all_pairs_sorted (n : nat) : StronglySorted iter_before (all_pairs n).
Proof. apply ssorted_rows. apply ssorted_seq. Qed.

Lemma iter_before_asym (p q : nat * nat) :
  iter_before p q -> iter_before q p -> False.
Proof. unfold iter_before. lia. Qed.

(** In the visiting order, the pairs before a pair are exactly the pairs
    visited before it. *)
Lemma all_pairs_prefix (n : nat) (l1 l2 : list (nat * nat)) (p q : nat * nat) :
  all_pairs n = l1 ++ p :: l2 ->
  is_pair n q -> iter_before q p -> In q l1.
Proof.
  intros Hl Hq Hlt.
  apply in_all_pairs in Hq. rewrite Hl in Hq.
  apply in_app_or in Hq. destruct Hq as [Hq | [Hq | Hq]].
  - exact Hq.
  - subst q. exfalso. exact (iter_before_asym _ _ Hlt Hlt).
  - exfalso. pose proof (all_pairs_sorted n) as Hs. rewrite Hl in Hs.
    apply ssorted_after in Hs. rewrite Forall_forall in Hs.
    exact (iter_before_asym _ _ Hlt (Hs q Hq)).
Qed.

(** The result of the scan: the initial state when no drop is positive,
    else the first pair of the maximum drop. *)
Lemma scan_drops_spec (scores : list Q) :
  (scan_drops scores = Ok (0, 0%nat, 0%nat)
   /\ forall q, is_pair (List.length scores) q -> drop scores q <= 0)
  \/ (exists p,
        scan_drops scores = Ok (drop scores p, fst p, snd p)
        /\ 0 < drop scores p
        /\ first_max_pair scores p).
Proof.
  rewrite scan_drops_fold.
  destruct (scan_fold_spec scores (all_pairs (List.length scores)) 0 0%nat 0%nat)
    as [[Hst Hall] | (l1 & p & l2 & Hl & Hst & Hlt & H1 & H2)].
  - left. split; [rewrite Hst; reflexivity|].
    intros q Hq. rewrite Forall_forall in Hall.
    apply Hall. apply in_all_pairs. exact Hq.
  - right. exists p. split; [rewrite Hst; reflexivity|]. split; [exact Hlt|].
    rewrite Forall_forall in H1, H2.
    assert (Hp : is_pair (List.length scores) p).
    { apply in_all_pairs. rewrite Hl. apply in_or_app. right. left. reflexivity. }
    split; [exact Hp|]. split.
    + intros q Hq. apply in_all_pairs in Hq. rewrite Hl in Hq.
      apply in_app_or in Hq. destruct Hq as [Hq | [Hq | Hq]].
      * apply Qlt_le_weak. apply H1. exact Hq.
      * subst q. apply Qle_refl.
      * apply H2. exact Hq.
    + intros q Hq Hbefore. apply H1.
      exact (all_pairs_prefix _ _ _ _ _ Hl Hq Hbefore).
Qed.

(** With at least two segments the detector runs the scan. *)
Lemma detect_escalation_scan st (segments : list SentimentSegment.t) :
  (2 <= List.length segments)%nat ->
  detect_escalation st segments
  = rbind (scan_drops (map SentimentSegment.score segments)) (fun s =>
      let '(max_drop, drop_start_idx, drop_end_idx) := s in
      if Qle_bool (SentimentSettings.escalation_threshold st) max_drop then
        rbind (getitem segments drop_start_idx) (fun seg_start =>
        rbind (getitem segments drop_end_idx) (fun seg_end =>
        rbind (getitem (map SentimentSegment.score segments) drop_start_idx)
              (fun score_start =>
        rbind (getitem (map SentimentSegment.score segments) drop_end_idx)
              (fun score_end =>
          Ok (true,
              Some {|
                EscalationDetails.maxDrop := py_round max_drop 3;
                EscalationDetails.startTime :=
                  SentimentSegment.startTime seg_start;
                EscalationDetails.endTime := SentimentSegment.endTime seg_end;
                EscalationDetails.startScore := py_round score_start 3;
                EscalationDetails.endScore := py_round score_end 3;
                EscalationDetails.duration :=
                  py_round (SentimentSegment.endTime seg_end
                            - SentimentSegment.startTime seg_start) 2
              |})))))
      else Ok (false, None)).
Proof.
  intro Hlen. unfold detect_escalation.
  assert (E : (List.length segments <? 2)%nat = false)
    by (apply Nat.ltb_ge; exact Hlen).
  rewrite E. reflexivity.
Qed.

(** When the scan ends on a pair that reaches the threshold, the detector
    reports the details of that pair. *)
Lemma detect_escalation_at_pair st (segments : list SentimentSegment.t) p :
  (2 <= List.length segments)%nat ->
  is_pair (List.length (map SentimentSegment.score segments)) p ->
  scan_drops (map SentimentSegment.score segments)
  = Ok (drop (map SentimentSegment.score segments) p, fst p, snd p) ->
  SentimentSettings.escalation_threshold st
  <= drop (map SentimentSegment.score segments) p ->
  exists sa sb,
    nth_error segments (fst p) = Some sa
    /\ nth_error segments (snd p) = Some sb
    /\ detect_escalation st segments = Ok (true, Some (details_of sa sb)).
Proof.
  intros Hlen [Hab Hb] Hscan Hle.
  rewrite length_map in Hb.
  destruct (nth_error segments (fst p)) as [sa|] eqn:Ea;
    [|apply nth_error_None in Ea; lia].
  destruct (nth_error segments (snd p)) as [sb|] eqn:Eb;
    [|apply nth_error_None in Eb; lia].
  exists sa, sb. split; [reflexivity|]. split; [reflexivity|].
  rewrite (detect_escalation_scan st segments Hlen), Hscan. cbn [rbind].
  apply Qle_bool_iff in Hle. rewrite Hle.
  assert (Hsa : nth (fst p) (map SentimentSegment.score segments) 0
                = SentimentSegment.score sa).
  { apply nth_error_nth. rewrite nth_error_map, Ea. reflexivity. }
  assert (Hsb : nth (snd p) (map SentimentSegment.score segments) 0
                = SentimentSegment.score sb).
  { apply nth_error_nth. rewrite nth_error_map, Eb. reflexivity. }
  unfold getitem. rewrite !nth_error_map, Ea, Eb. cbn [rbind option_map].
  unfold details_of, drop. rewrite Hsa, Hsb. reflexivity.
Qed.

(** When no drop is positive and the threshold is not positive either, the
    detector reports the initial state of the scan. *)
Lemma detect_escalation_no_drop st (segments : list SentimentSegment.t) :
  (2 <= List.length segments)%nat ->
  scan_drops (map SentimentSegment.score segments) = Ok (0, 0%nat, 0%nat) ->
  SentimentSettings.escalation_threshold st <= 0 ->
  exists d, detect_escalation st segments = Ok (true, Some d).
Proof.
  intros Hlen Hscan Hthr.
  rewrite (detect_escalation_scan st segments Hlen), Hscan. cbn [rbind].
  apply Qle_bool_iff in Hthr. rewrite Hthr.
  destruct segments as [|s0 segments]; [simpl in Hlen; lia|].
  eexists. reflexivity.
Qed.

End Detector.

(** C1, amended.  With fewer than 2 segments the detector returns
    not-detected with empty details.  Otherwise, over all pairs [(i, j)]
    with [i < j] and [drop = score_i - score_j]: for a positive escalation
    threshold (the default is 0.5), either some pair reaches the threshold,
    and then the detector returns detected with the details of the pair of
    maximum drop that comes first in iteration order (smallest [i], then
    smallest [j]), or no pair reaches the threshold and it returns
    not-detected with empty details; for a threshold that is not positive
    it returns detected whatever the scores, because the running maximum
    starts at 0. *)
Theorem C1_detect_escalation_max_drop
    (st : SentimentSettings.t) (segments : list SentimentSegment.t) :
  ((List.length segments < 2)%nat ->
   SentimentService.detect_escalation st segments = Ok (false, None))
  /\ ((2 <= List.length segments)%nat ->
      0 < SentimentSettings.escalation_threshold st ->
      (exists p sa sb,
          first_max_pair (map SentimentSegment.score segments) p
          /\ SentimentSettings.escalation_threshold st
             <= drop (map SentimentSegment.score segments) p
          /\ nth_error segments (fst p) = Some sa
          /\ nth_error segments (snd p) = Some sb
          /\ SentimentService.detect_escalation st segments
             = Ok (true, Some (details_of sa sb)))
      \/ ((forall q,
              is_pair (List.length segments) q ->
              drop (map SentimentSegment.score segments) q
              < SentimentSettings.escalation_threshold st)
          /\ SentimentService.detect_escalation st segments
             = Ok (false, None)))
  /\ ((2 <= List.length segments)%nat ->
      SentimentSettings.escalation_threshold st <= 0 ->
      exists d,
        SentimentService.detect_escalation st segments = Ok (true, Some d)).
Proof.
  split; [|split].
  - intro Hlen. unfold SentimentService.detect_escalation.
    apply Nat.ltb_lt in Hlen. rewrite Hlen. reflexivity.
  - intros Hlen Hpos.
    assert (Hn : List.length (map SentimentSegment.score segments)
                 = List.length segments) by (apply length_map).
    destruct (scan_drops_spec (map SentimentSegment.score segments))
      as [[Hscan Hall] | (p & Hscan & Hdrop & Hfirst)].
    + right. split.
      * intros q Hq. rewrite <- Hn in Hq. specialize (Hall q Hq). lra.
      * rewrite (detect_escalation_scan st segments Hlen), Hscan.
        cbn [rbind].
        assert (E : Qle_bool (SentimentSettings.escalation_threshold st) 0
                    = false) by (apply Qle_bool_false; exact Hpos).
        rewrite E. reflexivity.
    + destruct (Qlt_le_dec (drop (map SentimentSegment.score segments) p)
                           (SentimentSettings.escalation_threshold st))
        as [Hlt | Hle].
      * right. split.
        -- intros q Hq. rewrite <- Hn in Hq.
           destruct Hfirst as [_ [Hmax _]]. specialize (Hmax q Hq). lra.
        -- rewrite (detect_escalation_scan st segments Hlen), Hscan.
           cbn [rbind]. apply Qle_bool_false in Hlt. rewrite Hlt.
           reflexivity.
      * left.
        destruct (detect_escalation_at_pair st segments p Hlen
                    (proj1 Hfirst) Hscan Hle) as (sa & sb & Ea & Eb & Hres).
        exists p, sa, sb. repeat split; try assumption; apply Hfirst.
  - intros Hlen Hthr.
    destruct (scan_drops_spec (map SentimentSegment.score segments))
      as [[Hscan Hall] | (p & Hscan & Hdrop & Hfirst)].
    + exact (detect_escalation_no_drop st segments Hlen Hscan Hthr).
    + assert (Hle : SentimentSettings.escalation_threshold st
                    <= drop (map SentimentSegment.score segments) p) by lra.
      destruct (detect_escalation_at_pair st segments p Hlen
                  (proj1 Hfirst) Hscan Hle) as (sa & sb & _ & _ & Hres).
      exists (details_of sa sb). exact Hres.
Qed.

(** C1 at the default threshold 0.5 and the example: detected, with
    [maxDrop = 1.7], [startScore = 0.9] and [endScore = -0.8]. *)
Lemma C1_detect_escalation_witness :
  0 < SentimentSettings.escalation_threshold SentimentSettings.default
  /\ (exists d,
        SentimentService.detect_escalation SentimentSettings.default
          example_segments = Ok (true, Some d)
        /\ EscalationDetails.maxDrop d == 17 # 10
        /\ EscalationDetails.startScore d == 9 # 10
        /\ EscalationDetails.endScore d == - (8 # 10)).
Proof.
  assert (Hpos : 0 < SentimentSettings.escalation_threshold
                       SentimentSettings.default) by (simpl; lra).
  split; [exact Hpos|].
  destruct (C1_detect_escalation_max_drop
              SentimentSettings.default example_segments) as (_ & H & _).
  destruct (H (le_n 2) Hpos)
    as [(p & sa & sb & Hfirst & _ & Ea & Eb & Hres) | [_ Hres]].
  - exists (details_of sa sb). split; [exact Hres|].
    destruct Hfirst as [[Hab Hb] _]. destruct p as [i j].
    simpl in Hab, Hb, Ea, Eb.
    assert (Hi : i = 0%nat) by lia. assert (Hj : j = 1%nat) by lia.
    subst i j. simpl in Ea, Eb.
    injection Ea as <-. injection Eb as <-.
    repeat split; reflexivity.
  - vm_compute in Hres. discriminate.
Defined.

(** C1 as stated fails for a threshold that is not positive: with the
    threshold 0 and the scores [0, 1], the only pair has drop -1, below the
    threshold, and the detector returns detected. *)
Lemma C1_counterexample_zero_threshold :
  (forall q,
      is_pair 2 q ->
      drop (map SentimentSegment.score
              [scored_segment 0 5 0; scored_segment 5 10 1]) q
      < SentimentSettings.escalation_threshold settings_zero_threshold)
  /\ exists d,
       SentimentService.detect_escalation settings_zero_threshold
         [scored_segment 0 5 0; scored_segment 5 10 1] = Ok (true, Some d).
Proof.
  split.
  - intros [i j] [H1 H2]. simpl in H1, H2.
    assert (i = 0%nat) by lia. assert (j = 1%nat) by lia. subst.
    vm_compute. reflexivity.
  - eexists. vm_compute. reflexivity.
Qed.

(* ================================================================== *)
(** * Speaker diarization: [_add_speaker_diarization] *)
(* ================================================================== *)

Section Diarization.

Import PyStr WhisperService.

Lemma lstrip_spec (s : string) :
  exists pre, s = (pre ++ lstrip s)%string
              /\ all_spaces pre = true
              /\ starts_with_space (lstrip s) = false.
Proof.
  induction s as [|c s IH]; simpl.
  - exists EmptyString. repeat split.
  - destruct (isspace c) eqn:E.
    + destruct IH as (pre & Hs & Hpre & Hst).
      exists (String c pre). simpl. rewrite E, Hpre, <- Hs. repeat split.
      exact Hst.
    + exists EmptyString. simpl. rewrite E. repeat split.
Qed.

Lemma rstrip_spec (s : string) :
  exists post, s = (rstrip s ++ post)%string
               /\ all_spaces post = true
               /\ ends_with_space (rstrip s) = false.
Proof.
  induction s as [|c s IH]; simpl.
  - exists EmptyString. repeat split.
  - destruct IH as (post & Hs & Hpost & Hend).
    destruct (rstrip s) as [|c' r] eqn:Er.
    + simpl in Hs. subst s. destruct (isspace c) eqn:E.
      * exists (String c post). simpl. rewrite E, Hpost. repeat split.
      * exists post. simpl. rewrite E. repeat split. exact Hpost.
    + exists post. split; [|split].
      * change (String c s = String c (String c' r ++ post)%string).
        f_equal. exact Hs.
      * exact Hpost.
      * exact Hend.
Qed.

Lemma rstrip_keeps_start (s : string) :
  starts_with_space s = false -> starts_with_space (rstrip s) = false.
Proof.
  destruct s as [|c s]; simpl; [reflexivity|].
  intro H. destruct (rstrip s); [rewrite H|]; simpl; auto.
Qed.

Lemma append_assoc (a b c : string) :
  ((a ++ b) ++ c = a ++ (b ++ c))%string.
Proof. induction a as [|x a IH]; simpl; [reflexivity | rewrite IH; reflexivity]. Qed.

Lemma strip_trimmed (s : string) : trimmed_of s (strip s).
Proof.
  unfold trimmed_of, strip.
  destruct (lstrip_spec s) as (pre & Hs & Hpre & Hst).
  destruct (rstrip_spec (lstrip s)) as (post & Hl & Hpost & Hend).
  exists pre, post. repeat split; try assumption.
  - rewrite <- Hl. exact Hs.
  - apply rstrip_keeps_start. exact Hst.
Qed.

Lemma diarize_loop_from (raw : list RawSegment.t) (processed : list Segment.t)
    (speaker : string) (last_end_time : Q) :
  fst (fst (fold_left diarize_step raw (processed, speaker, last_end_time)))
  = processed
    ++ diarize_from (match processed with [] => true | _ => false end)
                    speaker last_end_time raw.
Proof.
  revert processed speaker last_end_time.
  induction raw as [|r rest IH]; intros processed speaker last_end_time.
  - simpl. rewrite app_nil_r. reflexivity.
  - simpl fold_left.
    destruct (diarize_step (processed, speaker, last_end_time) r)
      as [[processed' speaker'] last_end_time'] eqn:Estep.
    rewrite IH.
    unfold diarize_step in Estep. injection Estep as H1 H2 H3.
    subst processed' speaker' last_end_time'.
    rewrite <- app_assoc. f_equal.
    assert (E : (0 <? List.length processed)%nat
                = negb (match processed with [] => true | _ => false end))
      by (destruct processed; reflexivity).
    rewrite E.
    destruct (processed ++ _) eqn:Ep.
    + destruct processed; discriminate.
    + reflexivity.
Qed.

Lemma add_speaker_diarization_from (raw : list RawSegment.t) :
  _add_speaker_diarization raw = diarize_from true "agent" 0 raw.
Proof.
  unfold _add_speaker_diarization.
  pose proof (diarize_loop_from raw [] "agent" 0) as H.
  destruct (fold_left diarize_step raw ([], "agent", 0)) as [[processed sp] le].
  exact H.
Qed.

Lemma diarize_from_length first speaker last_end raw :
  List.length (diarize_from first speaker last_end raw) = List.length raw.
Proof.
  revert first speaker last_end.
  induction raw as [|r rest IH]; intros; simpl; [reflexivity|].
  rewrite IH. reflexivity.
Qed.

Lemma diarize_from_fields first speaker last_end raw k r o :
  nth_error raw k = Some r ->
  nth_error (diarize_from first speaker last_end raw) k = Some o ->
  Segment.startTime o = py_round (RawSegment.start r) 2
  /\ Segment.endTime o = py_round (RawSegment.end_ r) 2
  /\ Segment.text o = strip (RawSegment.text r).
Proof.
  revert first speaker last_end k.
  induction raw as [|r0 rest IH]; intros first speaker last_end k Hr Ho.
  - destruct k; discriminate.
  - destruct k as [|k]; simpl in Hr, Ho.
    + injection Hr as <-. injection Ho as <-. repeat split.
    + eapply IH; eassumption.
Qed.

Lemma diarize_from_next first speaker last_end raw k prev cur oprev ocur :
  nth_error raw k = Some prev ->
  nth_error raw (S k) = Some cur ->
  nth_error (diarize_from first speaker last_end raw) k = Some oprev ->
  nth_error (diarize_from first speaker last_end raw) (S k) = Some ocur ->
  Segment.speaker ocur
  = if Qltb PAUSE_THRESHOLD (silence_gap prev cur)
    then toggle_speaker (Segment.speaker oprev)
    else Segment.speaker oprev.
Proof.
  revert first speaker last_end k.
  induction raw as [|r0 rest IH];
    intros first speaker last_end k Hp Hc Hop Hoc.
  - destruct k; discriminate.
  - destruct k as [|k].
    + simpl in Hp, Hop. injection Hp as <-. injection Hop as <-.
      destruct rest as [|r1 rest']; [discriminate|].
      simpl in Hc, Hoc. injection Hc as <-. injection Hoc as <-.
      simpl. rewrite andb_true_r. reflexivity.
    + simpl in Hp, Hop.
      change (nth_error (r0 :: rest) (S (S k))) with (nth_error rest (S k)) in Hc.
      simpl diarize_from in Hoc.
      change (nth_error (?x :: ?l) (S (S k))) with (nth_error l (S k)) in Hoc.
      eapply IH; eassumption.
Qed.

Lemma toggle_speaker_changes (speaker : string) :
  toggle_speaker speaker <> speaker.
Proof.
  unfold toggle_speaker.
  destruct (String.eqb speaker "agent") eqn:E.
  - apply String.eqb_eq in E. subst. discriminate.
  - intro H. subst speaker. discriminate.
Qed.

End Diarization.

(** C6.  For every ordered raw segment sequence, the diarization yields one
    output segment per raw segment; the first is labelled "agent"; each
    later one toggles the label of its predecessor iff the silence gap
    (its start minus the previous segment's end) strictly exceeds 1.5
    seconds, and keeps it otherwise; and every output segment carries the
    start and end times rounded to two decimals (the nearest multiple of
    0.01, ties to the even one) and the text trimmed of surrounding
    whitespace.  Toggling always changes the label, so the
    label of a later segment differs from its predecessor's exactly when
    the gap exceeds the threshold. *)
Theorem C6_diarization_rule (raw : list RawSegment.t) :
  List.length (WhisperService._add_speaker_diarization raw) = List.length raw
  /\ (forall o,
        nth_error (WhisperService._add_speaker_diarization raw) 0 = Some o ->
        Segment.speaker o = "agent")
  /\ (forall k prev cur oprev ocur,
        nth_error raw k = Some prev ->
        nth_error raw (S k) = Some cur ->
        nth_error (WhisperService._add_speaker_diarization raw) k = Some oprev ->
        nth_error (WhisperService._add_speaker_diarization raw) (S k) = Some ocur ->
        (WhisperService.PAUSE_THRESHOLD < silence_gap prev cur ->
         Segment.speaker ocur = toggle_speaker (Segment.speaker oprev))
        /\ (silence_gap prev cur <= WhisperService.PAUSE_THRESHOLD ->
            Segment.speaker ocur = Segment.speaker oprev))
  /\ (forall k r o,
        nth_error raw k = Some r ->
        nth_error (WhisperService._add_speaker_diarization raw) k = Some o ->
        Segment.startTime o = py_round (RawSegment.start r) 2
        /\ rounded_to 2 (RawSegment.start r) (Segment.startTime o)
        /\ Segment.endTime o = py_round (RawSegment.end_ r) 2
        /\ rounded_to 2 (RawSegment.end_ r) (Segment.endTime o)
        /\ trimmed_of (RawSegment.text r) (Segment.text o))
  /\ (forall speaker, toggle_speaker speaker <> speaker).
Proof.
  rewrite add_speaker_diarization_from.
  split; [apply diarize_from_length|].
  split; [|split; [|split; [|apply toggle_speaker_changes]]].
  - intros o Ho. destruct raw as [|r rest]; [discriminate|].
    simpl in Ho. injection Ho as <-. simpl.
    rewrite andb_false_r. reflexivity.
  - intros k prev cur oprev ocur Hp Hc Hop Hoc.
    rewrite (diarize_from_next _ _ _ _ _ _ _ _ _ Hp Hc Hop Hoc).
    split; intro H.
    + apply Qltb_true in H. rewrite H. reflexivity.
    + apply Qltb_false in H. rewrite H. reflexivity.
  - intros k r o Hr Ho.
    destruct (diarize_from_fields _ _ _ _ _ _ _ Hr Ho) as (H1 & H2 & H3).
    split; [exact H1|]. split; [rewrite H1; apply py_round_rounded|].
    split; [exact H2|]. split; [rewrite H2; apply py_round_rounded|].
    rewrite H3. apply strip_trimmed.
Qed.

(* ================================================================== *)
(** * Confidence blending: [_calculate_confidence] *)
(* ================================================================== *)

Section Confidence.

Import WhisperService.

Lemma clamp_py (x : Q) : py_max 0 (py_min 1 x) == clamp01 x.
Proof.
  unfold py_max, py_min, clamp01.
  destruct (Qltb x 1) eqn:E1.
  - apply Qltb_true in E1.
    destruct (Qltb 0 x) eqn:E2.
    + apply Qltb_true in E2.
      assert (H0 : Qltb x 0 = false) by (apply Qltb_false; lra).
      assert (H1 : Qltb 1 x = false) by (apply Qltb_false; lra).
      rewrite H0, H1. reflexivity.
    + apply Qltb_false in E2.
      destruct (Qltb x 0) eqn:E3; [reflexivity|].
      apply Qltb_false in E3.
      assert (H1 : Qltb 1 x = false) by (apply Qltb_false; lra).
      rewrite H1. lra.
  - apply Qltb_false in E1.
    assert (H01 : Qltb 0 1 = true) by reflexivity. rewrite H01.
    assert (H0 : Qltb x 0 = false) by (apply Qltb_false; lra).
    rewrite H0.
    destruct (Qltb 1 x) eqn:E3; [reflexivity|].
    apply Qltb_false in E3. lra.
Qed.

Lemma weighted_terms (raw : list RawSegment.t) :
  map (fun cs : Q * RawSegment.t =>
         let (conf, seg) := cs in
         conf * (RawSegment.end_ seg - RawSegment.start seg))
      (combine (map segment_confidence raw) raw)
  = map (fun s => segment_confidence s * raw_duration s) raw.
Proof.
  induction raw as [|s raw IH]; simpl; [reflexivity|].
  rewrite IH. reflexivity.
Qed.

Lemma calculate_confidence_unfold (raw : list RawSegment.t) :
  raw <> [] ->
  _calculate_confidence raw
  = if Qeq_bool (py_sum (map raw_duration raw)) 0
    then np_mean (map segment_confidence raw)
    else py_round
           (py_sum (map (fun s => segment_confidence s * raw_duration s) raw)
            / py_sum (map raw_duration raw)) 3.
Proof.
  intro Hne. destruct raw as [|s raw]; [contradiction|].
  unfold _calculate_confidence. rewrite weighted_terms. reflexivity.
Qed.

(** With no negative duration, restricting the sums to the positive
    durations does not change them. *)
Lemma positive_filter_sums (raw : list RawSegment.t) :
  Forall (fun s => 0 <= raw_duration s) raw ->
  Spec.Qsum (map snd (filter (fun vd => Qltb 0 (snd vd)) (confidence_items raw)))
  == Spec.Qsum (map raw_duration raw)
  /\ Spec.Qsum (map (fun vd => fst vd * snd vd)
                    (filter (fun vd => Qltb 0 (snd vd)) (confidence_items raw)))
     == Spec.Qsum (map (fun s => segment_confidence s * raw_duration s) raw).
Proof.
  induction 1 as [|s raw Hs _ [IH1 IH2]]; simpl.
  - split; reflexivity.
  - destruct (Qltb 0 (raw_duration s)) eqn:E; simpl.
    + rewrite IH1, IH2. split; reflexivity.
    + apply Qltb_false in E.
      assert (H0 : raw_duration s == 0) by lra.
      rewrite IH1, IH2, H0. split; ring.
Qed.

End Confidence.

(** The aggregation rule above is the law of the sentiment aggregator: the
    overall score of [calculate_overall_sentiment] is the rule applied to
    the (score, duration) items of the segments. *)
Lemma aggregation_rule_is_aggregate
    (st : SentimentSettings.t) (segs : list SentimentSegment.t) :
  snd (SentimentService.calculate_overall_sentiment st segs)
  == aggregation_rule
       (map (fun s => (SentimentSegment.score s, Spec.duration s)) segs).
Proof.
  assert (Ht : Spec.Qsum (map snd (filter (fun vd => Qltb 0 (snd vd))
                 (map (fun s => (SentimentSegment.score s, Spec.duration s)) segs)))
               = Spec.total_duration segs).
  { unfold Spec.total_duration, Spec.positive_segments.
    induction segs as [|s segs IH]; simpl; [reflexivity|].
    destruct (Qltb 0 (Spec.duration s)); simpl; rewrite IH; reflexivity. }
  assert (Hw : Spec.Qsum (map (fun vd => fst vd * snd vd)
                 (filter (fun vd => Qltb 0 (snd vd))
                 (map (fun s => (SentimentSegment.score s, Spec.duration s)) segs)))
               = Spec.weighted_sum segs).
  { clear Ht. unfold Spec.weighted_sum, Spec.positive_segments.
    induction segs as [|s segs IH]; simpl; [reflexivity|].
    destruct (Qltb 0 (Spec.duration s)); simpl; rewrite IH; reflexivity. }
  unfold aggregation_rule. cbv zeta. rewrite Ht, Hw.
  rewrite calculate_overall_sentiment_unfold.
  destruct (agg_loop_sums segs 0 0) as [Htd Hws].
  rewrite Qplus_0_l in Htd, Hws. cbv zeta.
  destruct (Qeq_bool (Spec.total_duration segs) 0) eqn:E.
  - assert (E' : Qeq_bool (fst (fold_left agg_step segs (0, 0))) 0 = true).
    { apply Qeq_bool_iff. rewrite Htd. apply Qeq_bool_iff. exact E. }
    rewrite E'. reflexivity.
  - assert (E' : Qeq_bool (fst (fold_left agg_step segs (0, 0))) 0 = false).
    { apply Qeq_bool_false. rewrite Htd. apply Qeq_bool_false. exact E. }
    rewrite E'. cbn [snd]. rewrite Htd, Hws. reflexivity.
Qed.

(** C7, amended.  Each segment's confidence is the simple average of its
    [avg_logprob] (default -1.0) mapped linearly from [-2, 0] into [0, 1]
    and clamped, and of 1 minus its [no_speech_prob] (default 0.5).  The
    blended confidence is 0.0 for no segment; when the durations of all
    segments sum to 0 it is the plain mean of the segment confidences;
    otherwise it is the duration-weighted average over all segments, rounded
    to three decimals.  It is the aggregation rule of the sentiment
    aggregator, rounded to three decimals, when no segment has a negative
    duration and the durations do not sum to 0; that rule is the one
    [calculate_overall_sentiment] computes its overall score by. *)
Theorem C7_confidence_blending (raw : list RawSegment.t) :
  (forall s,
      WhisperService.segment_confidence s
      == (clamp01 ((avg_logprob_of s + 2) / 2) + (1 - no_speech_prob_of s)) / 2)
  /\ (raw = [] -> WhisperService._calculate_confidence raw = 0)
  /\ (raw <> [] -> Spec.Qsum (map raw_duration raw) == 0 ->
      WhisperService._calculate_confidence raw
      == Spec.Qsum (map WhisperService.segment_confidence raw)
         / inject_Z (Z.of_nat (List.length raw)))
  /\ (~ Spec.Qsum (map raw_duration raw) == 0 ->
      exists v,
        v == Spec.Qsum (map (fun s => WhisperService.segment_confidence s
                                      * raw_duration s) raw)
             / Spec.Qsum (map raw_duration raw)
        /\ WhisperService._calculate_confidence raw = py_round v 3)
  /\ (Forall (fun s => 0 <= raw_duration s) raw ->
      ~ Spec.Qsum (map raw_duration raw) == 0 ->
      exists v,
        v == aggregation_rule (confidence_items raw)
        /\ WhisperService._calculate_confidence raw = py_round v 3)
  /\ (forall st segs,
        snd (SentimentService.calculate_overall_sentiment st segs)
        == aggregation_rule
             (map (fun s => (SentimentSegment.score s, Spec.duration s)) segs)).
Proof.
  assert (Hgen : ~ Spec.Qsum (map raw_duration raw) == 0 ->
      exists v,
        v == Spec.Qsum (map (fun s => WhisperService.segment_confidence s
                                      * raw_duration s) raw)
             / Spec.Qsum (map raw_duration raw)
        /\ WhisperService._calculate_confidence raw = py_round v 3).
  { intro Hne.
    assert (Hraw : raw <> []) by (intro; subst; apply Hne; reflexivity).
    rewrite (calculate_confidence_unfold raw Hraw).
    assert (E : Qeq_bool (py_sum (map raw_duration raw)) 0 = false)
      by (apply Qeq_bool_false; rewrite py_sum_Qsum; exact Hne).
    rewrite E. eexists. split; [|reflexivity].
    rewrite !py_sum_Qsum. reflexivity. }
  split; [|split; [|split; [|split; [|split]]]];
    [| | | | | intros st segs; apply aggregation_rule_is_aggregate].
  - intro s. unfold WhisperService.segment_confidence.
    fold (avg_logprob_of s). fold (no_speech_prob_of s). cbv zeta.
    rewrite clamp_py. reflexivity.
  - intros ->. reflexivity.
  - intros Hraw H0. rewrite (calculate_confidence_unfold raw Hraw).
    assert (E : Qeq_bool (py_sum (map raw_duration raw)) 0 = true)
      by (apply Qeq_bool_iff; rewrite py_sum_Qsum; exact H0).
    rewrite E. unfold WhisperService.np_mean.
    rewrite py_sum_Qsum, length_map. reflexivity.
  - exact Hgen.
  - intros Hnn Hne. destruct (Hgen Hne) as (v & Hv & Hres).
    exists v. split; [|exact Hres].
    destruct (positive_filter_sums raw Hnn) as [H1 H2].
    unfold aggregation_rule. cbv zeta.
    assert (E : Qeq_bool
                  (Spec.Qsum (map snd (filter (fun vd => Qltb 0 (snd vd))
                                         (confidence_items raw)))) 0 = false)
      by (apply Qeq_bool_false; rewrite H1; exact Hne).
    rewrite E, H1, H2. exact Hv.
Qed.

(** C7 as stated fails when the total duration is 0: for one segment of
    zero duration the aggregation rule gives 0 and the blended confidence is
    the segment's own confidence, 0.5. *)
Lemma C7_counterexample_zero_duration :
  WhisperService._calculate_confidence [zero_duration_segment] == 1 # 2
  /\ aggregation_rule (confidence_items [zero_duration_segment]) == 0
  /\ ~ WhisperService._calculate_confidence [zero_duration_segment]
       == aggregation_rule (confidence_items [zero_duration_segment]).
Proof.
  split; [reflexivity|]. split; [reflexivity|].
  vm_compute. discriminate.
Qed.

(* ================================================================== *)
(** * The primary analysis path: truncation of long texts *)
(* ================================================================== *)

Section Truncation.

Import PyStr SentimentService.

Lemma take_length (n : nat) (s : string) :
  (String.length (take n s) <= n)%nat.
Proof.
  unfold take. revert s.
  induction n as [|n IH]; intro s; destruct s as [|c s]; simpl; try lia.
  specialize (IH s). lia.
Qed.

Lemma take_all (n : nat) (s : string) :
  (String.length s <= n)%nat -> take n s = s.
Proof.
  unfold take. revert s.
  induction n as [|n IH]; intro s; destruct s as [|c s]; simpl; intro H;
    try reflexivity; try lia.
  rewrite IH; [reflexivity | lia].
Qed.

Lemma take_idempotent (n : nat) (s : string) : take n (take n s) = take n s.
Proof. apply take_all. apply take_length. Qed.

(** The text the pipeline is called on. *)
Lemma truncated_text (s : string) :
  (if (500 <? String.length s)%nat then take 500 s else s) = take 500 s.
Proof.
  destruct (500 <? String.length s)%nat eqn:E; [reflexivity|].
  apply Nat.ltb_ge in E. symmetry. apply take_all. exact E.
Qed.

Lemma analyze_with_roberta_prefix st (s : string) (w : World) :
  _analyze_with_roberta st s w = _analyze_with_roberta st (take 500 s) w.
Proof.
  unfold _analyze_with_roberta. cbv zeta.
  rewrite (truncated_text s), (truncated_text (take 500 s)), take_idempotent.
  reflexivity.
Qed.

End Truncation.

(** C10.  For every text, and so for every text longer than 500 characters,
    the RoBERTa path returns exactly what it returns for the first 500
    characters of the text, in every process state; and any two texts with
    the same first 500 characters get the same result: the characters from
    position 500 on never influence the output. *)
Theorem C10_roberta_truncation
    (st : SentimentSettings.t) (text : string) (w : SentimentService.World) :
  SentimentService._analyze_with_roberta st text w
  = SentimentService._analyze_with_roberta st (PyStr.take 500 text) w
  /\ (forall text',
         PyStr.take 500 text' = PyStr.take 500 text ->
         SentimentService._analyze_with_roberta st text' w
         = SentimentService._analyze_with_roberta st text w).
Proof.
  split.
  - apply analyze_with_roberta_prefix.
  - intros text' H.
    rewrite (analyze_with_roberta_prefix st text'), H.
    symmetry. apply analyze_with_roberta_prefix.
Qed.

(** A text of 600 characters is analyzed as its first 500 characters: the
    pipeline is called once, on a text of length 500. *)
Lemma roberta_truncation_example :
  (500 < String.length (replicate 600 "a"))%nat
  /\ map (fun c => String.length (SentimentService.call_text c))
         (SentimentService.engine_calls
            (snd (SentimentService._analyze_with_roberta
                    SentimentSettings.default (replicate 600 "a")
                    (world_with (Some constant_pipeline) false None))))
     = [500%nat].
Proof.
  split.
  - apply Nat.ltb_lt. vm_compute. reflexivity.
  - vm_compute. reflexivity.
Qed.

(* ================================================================== *)
(** * Frame reasoning for computations over a process state *)
(* ================================================================== *)

Section Frames.

Context {S : Type}.

Variables R1 R2 R3 : S -> S -> Prop.
Hypothesis compose : forall a b c, R1 a b -> R2 b c -> R3 a c.
Hypothesis R1_in_R3 : forall a b, R1 a b -> R3 a b.

Lemma preserves_bind_gen {A B} (m : PyM S A) (k : A -> PyM S B) :
  preserves R1 m -> (forall v, preserves R2 (k v)) -> preserves R3 (bind m k).
Proof.
  intros Hm Hk w. unfold bind. specialize (Hm w).
  destruct (m w) as [[v|e] w']; simpl in *.
  - exact (compose _ _ _ Hm (Hk v w')).
  - apply R1_in_R3. exact Hm.
Qed.

Lemma preserves_try_gen {A} (body : PyM S A) (handler : exn -> PyM S A) :
  preserves R1 body -> (forall e, preserves R2 (handler e)) ->
  preserves R3 (try_m body handler).
Proof.
  intros Hb Hh w. unfold try_m. specialize (Hb w).
  destruct (body w) as [[v|e] w']; simpl in *.
  - apply R1_in_R3. exact Hb.
  - exact (compose _ _ _ Hb (Hh e w')).
Qed.

Lemma preserves_finally_gen {A} (body : PyM S A) (cleanup : PyM S unit) :
  preserves R1 body -> preserves R2 cleanup ->
  preserves R3 (finally_m body cleanup).
Proof.
  intros Hb Hc w. unfold finally_m. specialize (Hb w).
  destruct (body w) as [r w']. specialize (Hc w').
  destruct (cleanup w') as [[u|e] w'']; simpl in *;
    exact (compose _ _ _ Hb Hc).
Qed.

End Frames.

Section FramesPreorder.

Context {S : Type}.
Variable R : S -> S -> Prop.
Hypothesis R_refl : forall w, R w w.
Hypothesis R_trans : forall a b c, R a b -> R b c -> R a c.

Lemma preserves_ret {A} (v : A) : preserves R (ret v).
Proof. intro w. apply R_refl. Qed.

Lemma preserves_raise {A} (e : exn) : preserves R (@raise S A e).
Proof. intro w. apply R_refl. Qed.

Lemma preserves_lift {A} (r : PyResult A) : preserves R (lift r).
Proof. intro w. apply R_refl. Qed.

Lemma preserves_get_world : preserves R (@get_world S).
Proof. intro w. apply R_refl. Qed.

Lemma preserves_bind {A B} (m : PyM S A) (k : A -> PyM S B) :
  preserves R m -> (forall v, preserves R (k v)) -> preserves R (bind m k).
Proof. apply (preserves_bind_gen R R R); auto. Qed.

Lemma preserves_try {A} (body : PyM S A) (handler : exn -> PyM S A) :
  preserves R body -> (forall e, preserves R (handler e)) ->
  preserves R (try_m body handler).
Proof. apply (preserves_try_gen R R R); auto. Qed.

End FramesPreorder.

(* ================================================================== *)
(** * sentiment-service: what the analysis leaves unchanged *)
(* ================================================================== *)

Section AnalysisFrame.

Import SentimentService.

Lemma analysis_frame_refl w : analysis_frame w w.
Proof. repeat split. Qed.

Lemma analysis_frame_trans a b c :
  analysis_frame a b -> analysis_frame b c -> analysis_frame a c.
Proof.
  unfold analysis_frame. intros (H1 & H2 & H3) (H4 & H5 & H6).
  repeat split; congruence.
Qed.

Lemma logger_frame lvl msg : preserves analysis_frame (logger lvl msg).
Proof. intro w. repeat split. Qed.

Lemma call_roberta_frame text : preserves analysis_frame (call_roberta text).
Proof.
  intro w. unfold call_roberta.
  destruct (roberta_pipeline (sentiment_analyzer w)); repeat split.
Qed.

Lemma call_vader_frame text : preserves analysis_frame (call_vader text).
Proof. intro w. repeat split. Qed.

#[local] Hint Resolve analysis_frame_refl analysis_frame_trans logger_frame
  call_roberta_frame call_vader_frame : core.

Lemma analyze_with_roberta_frame st text :
  preserves analysis_frame (_analyze_with_roberta st text).
Proof.
  unfold _analyze_with_roberta. cbv zeta.
  pose proof analysis_frame_refl as Hrefl.
  pose proof analysis_frame_trans as Htrans.
  apply preserves_bind; auto. intro outputs.
  apply preserves_bind; auto using preserves_lift. intro results.
  apply preserves_bind; auto using preserves_lift. intros [[s c] d].
  apply preserves_ret; auto.
Qed.

Lemma analyze_with_vader_frame text :
  preserves analysis_frame (_analyze_with_vader text).
Proof.
  unfold _analyze_with_vader.
  pose proof analysis_frame_refl as Hrefl.
  pose proof analysis_frame_trans as Htrans.
  apply preserves_bind; auto. intro scores.
  destruct (if Qle_bool (1 # 20) (compound scores) then _ else _) as [s c].
  apply preserves_ret; auto.
Qed.

Lemma analyze_text_frame st text :
  preserves analysis_frame (analyze_text st text).
Proof.
  unfold analyze_text.
  pose proof analysis_frame_refl as Hrefl.
  pose proof analysis_frame_trans as Htrans.
  destruct (_ || _).
  - apply preserves_ret; auto.
  - apply preserves_try; auto.
    + apply preserves_bind; auto using preserves_get_world. intro w0.
      destruct (use_vader_fallback _);
        auto using analyze_with_vader_frame, analyze_with_roberta_frame.
    + intro e. apply preserves_bind; auto.
      intro. apply analyze_with_vader_frame.
Qed.

Lemma analyze_segments_loop_frame st segments acc :
  preserves analysis_frame (analyze_segments_loop st segments acc).
Proof.
  pose proof analysis_frame_refl as Hrefl.
  pose proof analysis_frame_trans as Htrans.
  revert acc. induction segments as [|seg rest IH]; intro acc; simpl.
  - apply preserves_ret; auto.
  - apply preserves_bind; auto using analyze_text_frame.
    intros [[[s c] d] e]. apply IH.
Qed.

Lemma analyze_segments_frame st segments :
  preserves analysis_frame (analyze_segments st segments).
Proof. apply analyze_segments_loop_frame. Qed.

End AnalysisFrame.

(* ================================================================== *)
(** * Events handed to the publisher *)
(* ================================================================== *)

Section Emission.

Context {S E : Type}.
Variable calls : S -> list E.

Lemma silent_refl w : silent calls w w.
Proof. reflexivity. Qed.

Lemma silent_trans a b c : silent calls a b -> silent calls b c -> silent calls a c.
Proof. unfold silent. congruence. Qed.

Lemma silent_emits P a b : silent calls a b -> emits calls P a b.
Proof. intro H. left. exact H. Qed.

Lemma silent_then_emits P a b c : silent calls a b -> emits calls P b c -> emits calls P a c.
Proof.
  unfold silent, emits. intros H [H' | (out & H' & Hp)].
  - left. congruence.
  - right. exists out. split; [congruence | exact Hp].
Qed.

Lemma emits_then_silent P a b c : emits calls P a b -> silent calls b c -> emits calls P a c.
Proof.
  unfold silent, emits. intros [H | (out & H & Hp)] H'.
  - left. congruence.
  - right. exists out. split; [congruence | exact Hp].
Qed.

Lemma preserves_weaken {A} (R R' : S -> S -> Prop) (m : PyM S A) :
  (forall a b, R a b -> R' a b) -> preserves R m -> preserves R' m.
Proof. intros H Hm w. apply H. apply Hm. Qed.

(** A silent step followed by steps that emit. *)
Lemma emits_bind_silent {A B} P (m : PyM S A) (k : A -> PyM S B) :
  preserves (silent calls) m -> (forall v, preserves (emits calls P) (k v)) ->
  preserves (emits calls P) (bind m k).
Proof.
  apply (preserves_bind_gen (silent calls) (emits calls P) (emits calls P)).
  - apply silent_then_emits.
  - apply silent_emits.
Qed.

(** A step that emits followed by silent steps. *)
Lemma emits_bind_then_silent {A B} P (m : PyM S A) (k : A -> PyM S B) :
  preserves (emits calls P) m -> (forall v, preserves (silent calls) (k v)) ->
  preserves (emits calls P) (bind m k).
Proof.
  apply (preserves_bind_gen (emits calls P) (silent calls) (emits calls P)).
  - apply emits_then_silent.
  - auto.
Qed.

Lemma emits_try_silent_handler {A} P (body : PyM S A) (handler : exn -> PyM S A) :
  preserves (emits calls P) body -> (forall e, preserves (silent calls) (handler e)) ->
  preserves (emits calls P) (try_m body handler).
Proof.
  apply (preserves_try_gen (emits calls P) (silent calls) (emits calls P)).
  - apply emits_then_silent.
  - auto.
Qed.

Lemma emits_finally_silent {A} P (body : PyM S A) (cleanup : PyM S unit) :
  preserves (emits calls P) body -> preserves (silent calls) cleanup ->
  preserves (emits calls P) (finally_m body cleanup).
Proof.
  apply (preserves_finally_gen (emits calls P) (silent calls) (emits calls P)).
  apply emits_then_silent.
Qed.

End Emission.

Section SentimentEmission.

Import SentimentService.

Lemma analysis_frame_silent {A} (m : M A) :
  preserves analysis_frame m -> preserves (silent publish_calls) m.
Proof.
  apply preserves_weaken. intros a b (_ & _ & H). exact H.
Qed.

Lemma publish_sentiment_emits st dump ev :
  preserves (emits publish_calls (fun out => out = ev))
            (publish_sentiment st dump ev).
Proof.
  intro w. right. exists ev. split; [|reflexivity].
  unfold publish_sentiment.
  destruct (producer (kafka_service (note_publish_call ev w))) as [p|];
    [|reflexivity].
  destruct (rbind (dump ev) _) as [b|e]; [reflexivity|].
  destruct (is_kafka_error e); reflexivity.
Qed.

Lemma process_single_event_emits st env event :
  preserves (emits publish_calls (sentiment_links event))
            (process_single_event st env event).
Proof.
  pose proof (@silent_refl World _ publish_calls) as Hrefl.
  pose proof (@silent_trans World _ publish_calls) as Htrans.
  assert (Hlog : forall lvl msg,
             preserves (silent publish_calls) (logger lvl msg))
    by (intros; apply analysis_frame_silent, logger_frame).
  unfold process_single_event. cbv zeta.
  apply emits_try_silent_handler; [|intro e; apply Hlog].
  apply emits_bind_silent; [apply Hlog|]. intros _.
  destruct (CallTranscribedIn.segments (CallTranscribedIn.payload_of event))
    as [|seg rest].
  - apply (preserves_weaken (silent publish_calls)).
    + apply silent_emits.
    + apply Hlog.
  - apply emits_bind_silent; [apply Hlog|]. intros _.
    apply emits_bind_silent;
      [apply analysis_frame_silent, analyze_segments_frame|].
    intro sentiment_segments.
    destruct (calculate_overall_sentiment st sentiment_segments)
      as [overall_sentiment overall_score].
    apply emits_bind_silent; [apply preserves_lift; exact Hrefl|].
    intros [escalation_detected escalation_details].
    apply emits_bind_silent.
    { destruct escalation_detected;
        [apply Hlog | apply preserves_ret; exact Hrefl]. }
    intros _.
    apply emits_bind_silent; [apply preserves_get_world; exact Hrefl|].
    intro w0.
    apply emits_bind_then_silent.
    + eapply preserves_weaken; [|apply publish_sentiment_emits].
      intros a b [H | (out & H & ->)]; [left; exact H|].
      right. eexists. split; [exact H|]. repeat split.
    + intros [|]; apply Hlog.
Qed.

(** A run of [process_single_event] leaves the analyzer object as it is. *)
Lemma process_single_event_keeps_analyzer st env event w :
  sentiment_analyzer (snd (process_single_event st env event w))
  = sentiment_analyzer w.
Proof.
  set (R := fun a b : World => sentiment_analyzer b = sentiment_analyzer a).
  assert (Hrefl : forall a, R a a) by reflexivity.
  assert (Htrans : forall a b c, R a b -> R b c -> R a c)
    by (unfold R; intros; congruence).
  assert (Hframe : forall A (m : M A), preserves analysis_frame m -> preserves R m).
  { intros A m. apply preserves_weaken. intros a b (H & _). exact H. }
  assert (Hlog : forall lvl msg, preserves R (logger lvl msg))
    by (intros; apply Hframe, logger_frame).
  assert (Hpub : forall dump ev, preserves R (publish_sentiment st dump ev)).
  { intros dump ev w0. unfold R, publish_sentiment.
    destruct (producer (kafka_service (note_publish_call ev w0))) as [p|];
      [|reflexivity].
    destruct (rbind (dump ev) _) as [b|e]; [reflexivity|].
    destruct (is_kafka_error e); reflexivity. }
  change (R w (snd (process_single_event st env event w))).
  revert w. change (preserves R (process_single_event st env event)).
  unfold process_single_event. cbv zeta.
  apply preserves_try; [exact Htrans | | intro e; apply Hlog].
  apply preserves_bind; [exact Htrans | apply Hlog | intros _].
  destruct (CallTranscribedIn.segments (CallTranscribedIn.payload_of event))
    as [|seg rest]; [apply Hlog|].
  apply preserves_bind; [exact Htrans | apply Hlog | intros _].
  apply preserves_bind;
    [exact Htrans | apply Hframe, analyze_segments_frame | intro ss].
  destruct (calculate_overall_sentiment st ss) as [overall_sentiment score].
  apply preserves_bind;
    [exact Htrans | apply preserves_lift; exact Hrefl | intros [det details]].
  apply preserves_bind; [exact Htrans | | intros _].
  { destruct det; [apply Hlog | apply preserves_ret; exact Hrefl]. }
  apply preserves_bind;
    [exact Htrans | apply preserves_get_world; exact Hrefl | intro w0].
  apply preserves_bind; [exact Htrans | apply Hpub | intros [|]; apply Hlog].
Qed.

End SentimentEmission.

Section TranscriptionEmission.

Import TranscriptionService.

Lemma t_logger_silent lvl msg : preserves (silent publish_calls) (logger lvl msg).
Proof. intro w. reflexivity. Qed.

Lemma t_set_model_silent m : preserves (silent publish_calls) (set_model m).
Proof. intro w. reflexivity. Qed.

Lemma t_set_producer_silent p :
  preserves (silent publish_calls) (set_producer p).
Proof. intro w. reflexivity. Qed.

Lemma t_os_remove_silent path :
  preserves (silent publish_calls) (os_remove path).
Proof. intro w. reflexivity. Qed.

(** Steps of a computation that do not call the publisher. *)
Ltac silent_steps :=
  repeat first
    [ apply t_logger_silent
    | apply t_set_model_silent
    | apply t_set_producer_silent
    | apply t_os_remove_silent
    | apply preserves_ret; [apply silent_refl]
    | apply preserves_raise; [apply silent_refl]
    | apply preserves_lift; [apply silent_refl]
    | apply preserves_get_world; [apply silent_refl]
    | apply preserves_bind; [apply silent_trans | | intro]
    | apply preserves_try; [apply silent_trans | | intro]
    | match goal with
      | |- preserves _ (if ?b then _ else _) => destruct b
      | |- preserves _ (match ?x with _ => _ end) => destruct x
      end ].

Lemma t_load_model_silent env : preserves (silent publish_calls) (load_model env).
Proof. unfold load_model. silent_steps. Qed.

Lemma t_transcribe_silent env path :
  preserves (silent publish_calls) (transcribe env path).
Proof.
  unfold transcribe.
  apply preserves_bind;
    [apply silent_trans | apply t_load_model_silent | intro].
  silent_steps.
Qed.

Lemma t_create_producer_silent env :
  preserves (silent publish_calls) (create_producer env).
Proof. unfold create_producer. silent_steps. Qed.

Lemma publish_call_transcribed_emits env ev :
  preserves (emits publish_calls (fun out => out = ev))
            (publish_call_transcribed env ev).
Proof.
  unfold publish_call_transcribed.
  apply emits_bind_then_silent.
  - intro w. right. exists ev. split; reflexivity.
  - intros _.
    apply preserves_bind;
      [apply silent_trans | silent_steps | intro w0].
    apply preserves_bind; [apply silent_trans | | intro].
    + destruct (producer w0).
      * silent_steps.
      * apply preserves_bind;
          [apply silent_trans | apply t_create_producer_silent | intro].
        silent_steps.
    + silent_steps.
Qed.

Lemma process_transcription_event_emits env event :
  preserves (emits publish_calls (transcription_links event))
            (process_transcription_event env event).
Proof.
  unfold process_transcription_event. cbv zeta.
  apply emits_try_silent_handler; [|intro e; apply t_logger_silent].
  apply emits_bind_silent; [apply t_logger_silent|]. intros _.
  apply emits_bind_silent; [apply t_logger_silent|]. intros _.
  apply emits_bind_silent; [apply preserves_lift; apply silent_refl|].
  intro audio_path.
  apply emits_finally_silent.
  - apply emits_bind_silent; [apply t_logger_silent|]. intros _.
    apply emits_bind_silent; [apply t_transcribe_silent|].
    intro transcription.
    apply emits_bind_silent; [apply t_logger_silent|]. intros _.
    apply emits_bind_then_silent.
    + eapply preserves_weaken; [|apply publish_call_transcribed_emits].
      intros a b [H | (out & H & ->)]; [left; exact H|].
      right. eexists. split; [exact H|]. repeat split.
    + intros [|]; apply t_logger_silent.
  - destruct (path_exists env audio_path); silent_steps.
Qed.

End TranscriptionEmission.

(* ================================================================== *)
(** * Engine degradation: per-call fallback and the persistent flag *)
(* ================================================================== *)

Section Degradation.

Import SentimentService.

Lemma app_self_nil {A} (l l' : list A) : l = l ++ l' -> l' = [].
Proof.
  intro H. apply (app_inv_head l). rewrite app_nil_r. symmetry. exact H.
Qed.

(** The result of a VADER analysis depends on the state through the
    analyzer object only. *)
Lemma analyze_with_vader_result text w1 w2 :
  sentiment_analyzer w1 = sentiment_analyzer w2 ->
  fst (_analyze_with_vader text w1) = fst (_analyze_with_vader text w2).
Proof.
  intro H. unfold _analyze_with_vader, bind, call_vader. cbv zeta.
  rewrite H.
  destruct (vader_analyzer (sentiment_analyzer w2) text) as [scores|e];
    [|reflexivity].
  destruct (if Qle_bool (1 # 20) (compound scores) then _ else _) as [s c].
  reflexivity.
Qed.

(** When the RoBERTa path returns, it made one engine invocation, which did
    not raise. *)
Lemma analyze_with_roberta_ok_calls st text w v w1 :
  _analyze_with_roberta st text w = (Ok v, w1) ->
  exists t, engine_calls w1 = engine_calls w ++ [mk_call RoBERTa t false].
Proof.
  unfold _analyze_with_roberta, bind, call_roberta, lift. cbv zeta.
  destruct (roberta_pipeline (sentiment_analyzer w)) as [p|]; [|discriminate].
  match goal with
  | |- context [p ?t] => destruct (p t) as [outputs|e] eqn:Ep; [|discriminate]
  end.
  destruct (getitem outputs 0) as [results|e]; [|discriminate].
  destruct (_calculate_weighted_score st results) as [[[s c] d]|e];
    [|discriminate].
  unfold ret. intro H. injection H as _ <-.
  eexists. reflexivity.
Qed.

(** Whenever the RoBERTa path raises for a text that is not blank, in a
    process that is not in fallback mode, [analyze_text] returns what the
    VADER analysis of the text returns. *)
Lemma analyze_text_falls_back st text w e w1 :
  PyStr.is_empty text || PyStr.is_empty (PyStr.strip text) = false ->
  use_vader_fallback (sentiment_analyzer w) = false ->
  _analyze_with_roberta st text w = (Raised e, w1) ->
  fst (analyze_text st text w) = fst (_analyze_with_vader text w).
Proof.
  intros Hblank Hflag Hrob.
  unfold analyze_text. rewrite Hblank.
  unfold try_m, bind at 1, get_world. rewrite Hflag, Hrob.
  unfold bind, logger.
  apply analyze_with_vader_result. simpl.
  destruct (analyze_with_roberta_frame st text w) as [Ha _].
  rewrite Hrob in Ha. exact Ha.
Qed.

Lemma load_model_flag init w :
  use_vader_fallback (sentiment_analyzer (snd (load_model init w)))
  = use_vader_fallback (sentiment_analyzer w) || negb (is_ok init).
Proof.
  unfold load_model. destruct init as [p|e]; simpl.
  - rewrite orb_false_r. reflexivity.
  - rewrite orb_true_r. reflexivity.
Qed.

End Degradation.

(** C4.  If the process is not in permanent fallback mode and the call
    [analyze_text(T)] invokes the RoBERTa engine and that invocation raises,
    then the call returns exactly what a direct VADER analysis of [T]
    returns, and leaves the analyzer object, hence the persistent fallback
    flag, unchanged.  [load_model] is what sets the flag: it is set after
    [load_model] iff it was set before or the initialization raised; and
    no run of [process_single_event] changes the analyzer object. *)
Theorem C4_per_call_fallback
    (st : SentimentSettings.t) (text : string) (w : SentimentService.World) :
  SentimentService.use_vader_fallback (SentimentService.sentiment_analyzer w)
  = false ->
  (exists t before after,
      SentimentService.engine_calls
        (snd (SentimentService.analyze_text st text w))
      = SentimentService.engine_calls w
        ++ before
        ++ SentimentService.mk_call SentimentService.RoBERTa t true :: after) ->
  fst (SentimentService.analyze_text st text w)
  = fst (SentimentService._analyze_with_vader text w)
  /\ SentimentService.sentiment_analyzer
       (snd (SentimentService.analyze_text st text w))
     = SentimentService.sentiment_analyzer w
  /\ SentimentService.use_vader_fallback
       (SentimentService.sentiment_analyzer
          (snd (SentimentService.analyze_text st text w))) = false
  /\ (forall init w0,
         SentimentService.use_vader_fallback
           (SentimentService.sentiment_analyzer
              (snd (SentimentService.load_model init w0)))
         = SentimentService.use_vader_fallback
             (SentimentService.sentiment_analyzer w0)
           || negb (is_ok init))
  /\ (forall env event w0,
         SentimentService.sentiment_analyzer
           (snd (SentimentService.process_single_event st env event w0))
         = SentimentService.sentiment_analyzer w0).
Proof.
  intros Hflag (t & before & after & Hcalls).
  destruct (analyze_text_frame st text w) as [Ha _].
  split; [|split; [exact Ha | split; [rewrite Ha; exact Hflag|split]]];
    [| intros init w0; apply load_model_flag
     | intros env event w0; apply process_single_event_keeps_analyzer].
  - destruct (PyStr.is_empty text || PyStr.is_empty (PyStr.strip text))
      eqn:Hblank.
    + exfalso. unfold SentimentService.analyze_text in Hcalls.
      rewrite Hblank in Hcalls. simpl in Hcalls.
      apply app_self_nil in Hcalls.
      destruct before; discriminate.
    + destruct (SentimentService._analyze_with_roberta st text w)
        as [[v|e] w1] eqn:Hrob.
      * exfalso. unfold SentimentService.analyze_text in Hcalls.
        rewrite Hblank in Hcalls.
        unfold try_m, bind at 1, get_world in Hcalls.
        rewrite Hflag, Hrob in Hcalls. simpl in Hcalls.
        destruct (analyze_with_roberta_ok_calls _ _ _ _ _ Hrob) as [t' Ht'].
        rewrite Ht' in Hcalls. apply app_inv_head in Hcalls.
        destruct before as [|c [|c' before]]; simpl in Hcalls; discriminate.
      * exact (analyze_text_falls_back st text w e w1 Hblank Hflag Hrob).
Qed.

(** C4 on a process whose pipeline raises on every text. *)
Lemma C4_per_call_fallback_witness :
  fst (SentimentService.analyze_text SentimentSettings.default "hello"
         (world_with (Some failing_pipeline) false None))
  = fst (SentimentService._analyze_with_vader "hello"
           (world_with (Some failing_pipeline) false None))
  /\ SentimentService.use_vader_fallback
       (SentimentService.sentiment_analyzer
          (snd (SentimentService.analyze_text SentimentSettings.default "hello"
                  (world_with (Some failing_pipeline) false None)))) = false.
Proof.
  destruct (C4_per_call_fallback SentimentSettings.default "hello"
              (world_with (Some failing_pipeline) false None))
    as (H1 & _ & H3 & _ & _).
  - reflexivity.
  - exists "hello", [],
      [SentimentService.mk_call SentimentService.VADER "hello" false].
    reflexivity.
  - split; [exact H1 | exact H3].
Defined.

(** Blank text short-circuits: neutral, 0.0, 1.0, no emotions, and the
    state, hence the history of engine invocations, is unchanged. *)
Lemma analyze_text_blank st text w :
  PyStr.is_empty text || PyStr.is_empty (PyStr.strip text) = true ->
  SentimentService.analyze_text st text w = (Ok ("neutral", 0, 1, []), w).
Proof.
  intro H. unfold SentimentService.analyze_text. rewrite H. reflexivity.
Qed.

(* ================================================================== *)
(** * Causal links of the output envelope *)
(* ================================================================== *)

(** C3, amended.  For every input event [E], each service hands at most one
    output event to its publisher.  In the sentiment service that event has
    [causationId = E.eventId], [correlationId = E.correlationId] and
    [aggregateId = E.aggregateId].  In the transcription service it has
    [causationId = E.eventId], [correlationId = E.correlationId] and
    [aggregateId = E.payload.callId], which is [E.aggregateId] whenever the
    input event's aggregate id is its payload's call id. *)
Theorem C3_causal_envelope :
  (forall st env (E : CallTranscribedIn.t) w,
      emits SentimentService.publish_calls
        (fun out =>
           SentimentAnalyzedEvent.causationId out
           = Some (CallTranscribedIn.eventId E)
           /\ SentimentAnalyzedEvent.correlationId out
              = CallTranscribedIn.correlationId E
           /\ SentimentAnalyzedEvent.aggregateId out
              = CallTranscribedIn.aggregateId E)
        w (snd (SentimentService.process_single_event st env E w)))
  /\ (forall env (E : CallReceivedEvent.t) w,
        emits TranscriptionService.publish_calls
          (fun out =>
             CallTranscribedEvent.causationId out = CallReceivedEvent.eventId E
             /\ CallTranscribedEvent.correlationId out
                = CallReceivedEvent.correlationId E
             /\ CallTranscribedEvent.aggregateId out
                = CallReceivedEvent.callId (CallReceivedEvent.payload_of E)
             /\ (CallReceivedEvent.aggregateId E
                 = CallReceivedEvent.callId (CallReceivedEvent.payload_of E) ->
                 CallTranscribedEvent.aggregateId out
                 = CallReceivedEvent.aggregateId E))
          w (snd (TranscriptionService.process_transcription_event env E w))).
Proof.
  split.
  - intros st env E w. exact (process_single_event_emits st env E w).
  - intros env E w.
    destruct (process_transcription_event_emits env E w)
      as [H | (out & H & H1 & H2 & H3)].
    + left. exact H.
    + right. exists out. split; [exact H|].
      repeat split; try assumption. intro Heq. congruence.
Qed.

(** C3 as stated fails in the transcription service: for an input event
    with aggregate id "call-A" and payload call id "call-B", the output
    event is produced with aggregate id "call-B". *)
Lemma C3_counterexample_aggregate_id :
  exists out,
    published_for (received_event "call-A" "call-B") = [out]
    /\ CallTranscribedEvent.causationId out = "evt-1"
    /\ CallTranscribedEvent.aggregateId out = "call-B"
    /\ CallTranscribedEvent.aggregateId out
       <> CallReceivedEvent.aggregateId (received_event "call-A" "call-B").
Proof.
  eexists. split; [vm_compute; reflexivity|].
  repeat split. discriminate.
Qed.

(** A run of the sentiment service that publishes: the output event carries
    the links of the input event. *)
Lemma sentiment_run_example :
  exists out,
    SentimentService.publish_calls
      (snd (SentimentService.process_single_event SentimentSettings.default
              sentiment_env
              (transcribed_event
                 [TranscriptionSegment.mk 0 5 "Hello" (Some "agent") None])
              (world_with (Some constant_pipeline) false (Some acking_producer))))
    = [out]
    /\ SentimentAnalyzedEvent.causationId out = Some "evt-1"
    /\ SentimentAnalyzedEvent.correlationId out = "corr-1"
    /\ SentimentAnalyzedEvent.aggregateId out = "call-1"
    /\ SentimentAnalyzedEvent.overallSentiment
         (SentimentAnalyzedEvent.payload_of out) = "positive".
Proof.
  eexists. split; [vm_compute; reflexivity|].
  repeat split.
Qed.

(* ================================================================== *)
(** * The empty-segments short-circuit *)
(* ================================================================== *)

(** C9.  For every input event whose payload has zero segments,
    [process_single_event] returns normally after logging: the history of
    engine invocations and of calls of the publisher, the analyzer object
    and the Kafka service are unchanged, and the log gains the two records
    of the short-circuit. *)
Theorem C9_empty_segments_short_circuit
    (st : SentimentSettings.t) (env : SentimentService.Env)
    (event : CallTranscribedIn.t) (w : SentimentService.World) :
  CallTranscribedIn.segments (CallTranscribedIn.payload_of event) = [] ->
  fst (SentimentService.process_single_event st env event w) = Ok tt
  /\ SentimentService.engine_calls
       (snd (SentimentService.process_single_event st env event w))
     = SentimentService.engine_calls w
  /\ SentimentService.publish_calls
       (snd (SentimentService.process_single_event st env event w))
     = SentimentService.publish_calls w
  /\ SentimentService.sentiment_analyzer
       (snd (SentimentService.process_single_event st env event w))
     = SentimentService.sentiment_analyzer w
  /\ SentimentService.kafka_service
       (snd (SentimentService.process_single_event st env event w))
     = SentimentService.kafka_service w
  /\ SentimentService.log
       (snd (SentimentService.process_single_event st env event w))
     = SentimentService.log w
       ++ [(INFO, ("Processing sentiment analysis for call "
                   ++ CallTranscribedIn.aggregateId event)%string);
           (WARNING, ("No segments found for call "
                      ++ CallTranscribedIn.aggregateId event)%string)].
Proof.
  intro Hempty.
  unfold SentimentService.process_single_event. cbv zeta.
  rewrite Hempty.
  unfold try_m, bind, SentimentService.logger. simpl.
  repeat split. rewrite <- app_assoc. reflexivity.
Qed.

(** C9 on an event without segments, in a process with a working pipeline
    and producer. *)
Lemma C9_empty_segments_witness :
  SentimentService.engine_calls
    (snd (SentimentService.process_single_event SentimentSettings.default
            sentiment_env (transcribed_event [])
            (world_with (Some constant_pipeline) false (Some acking_producer))))
  = []
  /\ SentimentService.publish_calls
       (snd (SentimentService.process_single_event SentimentSettings.default
               sentiment_env (transcribed_event [])
               (world_with (Some constant_pipeline) false
                  (Some acking_producer))))
     = [].
Proof.
  destruct (C9_empty_segments_short_circuit SentimentSettings.default
              sentiment_env (transcribed_event [])
              (world_with (Some constant_pipeline) false (Some acking_producer))
              eq_refl)
    as (_ & H1 & H2 & _).
  split; [exact H1 | exact H2].
Defined.

(* ================================================================== *)
(** * The publishers: boolean outcome *)
(* ================================================================== *)

Section Publishers.

(** The three steps of a publication succeed: serialization, send and
    acknowledgment. *)
Lemma publication_succeeds {D F} (dump : PyResult D)
    (send : D -> PyResult (PyResult F)) :
  is_ok (rbind dump (fun d => rbind (send d) (fun future => future))) = true
  <-> exists d md, dump = Ok d /\ send d = Ok (Ok md).
Proof.
  destruct dump as [d|e]; simpl.
  - destruct (send d) as [[md|e]|e] eqn:Es; simpl.
    + split; [intros _; exists d, md; split; [reflexivity | exact Es]
             | reflexivity].
    + split; [discriminate|]. intros (d' & md & Hd & Hs).
      injection Hd as <-. rewrite Es in Hs. discriminate.
    + split; [discriminate|]. intros (d' & md & Hd & Hs).
      injection Hd as <-. rewrite Es in Hs. discriminate.
  - split; [discriminate|]. intros (d' & md & Hd & _). discriminate.
Qed.

Lemma publish_sentiment_returns st dump ev w p :
  SentimentService.producer (SentimentService.kafka_service w) = Some p ->
  fst (SentimentService.publish_sentiment st dump ev w)
  = Ok (is_ok (rbind (dump ev) (fun event_dict =>
           rbind (SentimentService.send p
                    (SentimentSettings.kafka_output_topic st) event_dict)
                 (fun future => future)))).
Proof.
  intro Hp. unfold SentimentService.publish_sentiment. simpl. rewrite Hp.
  destruct (dump ev) as [d|e]; simpl.
  - destruct (SentimentService.send p _ d) as [[md|e]|e]; simpl;
      try reflexivity; destruct (is_kafka_error e); reflexivity.
  - destruct (is_kafka_error e); reflexivity.
Qed.

(** The [try] block of [publish_call_transcribed] in a state that holds the
    producer [p]. *)
Lemma publish_call_transcribed_try env ev w p :
  TranscriptionService.producer w = Some p ->
  fst (try_m
         (bind (lift (TranscriptionService.model_dump env ev)) (fun event_dict =>
          bind (TranscriptionService.logger INFO
                  "Publishing CallTranscribed event") (fun _ =>
          bind get_world (fun w =>
          bind (lift (match TranscriptionService.producer w with
                      | Some p =>
                          TranscriptionService.send p
                            TranscriptionService.TOPIC_CALLS_TRANSCRIBED
                            event_dict
                      | None => Raised TypeError
                      end)) (fun future =>
          bind (lift future) (fun record_metadata =>
          bind (TranscriptionService.logger INFO
                  "Event published successfully") (fun _ =>
          ret true)))))))
         (fun e =>
            if is_kafka_error e
            then bind (TranscriptionService.logger ERROR
                         "Kafka error publishing event")
                      (fun _ => ret false)
            else bind (TranscriptionService.logger ERROR
                         "Error publishing CallTranscribed event")
                      (fun _ => ret false))
         w)
  = Ok (is_ok (rbind (TranscriptionService.model_dump env ev) (fun event_dict =>
          rbind (TranscriptionService.send p
                   TranscriptionService.TOPIC_CALLS_TRANSCRIBED event_dict)
                (fun future => future)))).
Proof.
  intro Hp. unfold try_m, bind, lift, get_world, ret.
  destruct (TranscriptionService.model_dump env ev) as [d|e]; simpl.
  - rewrite Hp.
    destruct (TranscriptionService.send p _ d) as [[md|e]|e]; simpl;
      try reflexivity; destruct (is_kafka_error e); reflexivity.
  - destruct (is_kafka_error e); reflexivity.
Qed.

(** [publish_call_transcribed] with the producer [p], already held or
    created by the call. *)
Lemma publish_call_transcribed_returns env ev w p :
  TranscriptionService.producer w = Some p
  \/ (TranscriptionService.producer w = None
      /\ TranscriptionService.new_producer env = Ok p) ->
  fst (TranscriptionService.publish_call_transcribed env ev w)
  = Ok (is_ok (rbind (TranscriptionService.model_dump env ev) (fun event_dict =>
          rbind (TranscriptionService.send p
                   TranscriptionService.TOPIC_CALLS_TRANSCRIBED event_dict)
                (fun future => future)))).
Proof.
  intro Hprod.
  unfold TranscriptionService.publish_call_transcribed.
  unfold bind at 1 2 3 4.
  unfold TranscriptionService.note_publish_call, get_world. cbn [fst snd].
  cbn [TranscriptionService.producer].
  destruct Hprod as [Hp | [Hnone Hnew]].
  - rewrite Hp. unfold ret at 1.
    apply (publish_call_transcribed_try env ev _ p). reflexivity.
  - rewrite Hnone.
    unfold TranscriptionService.create_producer, bind at 1 2.
    unfold TranscriptionService.logger at 1. cbn [fst snd].
    rewrite Hnew.
    unfold bind at 1. unfold TranscriptionService.logger at 1.
    unfold ret at 1. unfold TranscriptionService.set_producer.
    apply (publish_call_transcribed_try env ev _ p). reflexivity.
Qed.

End Publishers.

(** C8, amended.  [publish_sentiment], called when the producer is
    initialized, and [publish_call_transcribed], called when the producer
    exists or can be created, return a boolean for every output event and
    every outcome of serialization, send and acknowledgment, and raise
    nothing: [True] when the three steps succeed and [False] otherwise. *)
Theorem C8_publish_reports_boolean :
  (forall st dump ev w p,
      SentimentService.producer (SentimentService.kafka_service w) = Some p ->
      exists b,
        fst (SentimentService.publish_sentiment st dump ev w) = Ok b
        /\ (b = true <->
            exists d md,
              dump ev = Ok d
              /\ SentimentService.send p
                   (SentimentSettings.kafka_output_topic st) d = Ok (Ok md)))
  /\ (forall env ev w p,
        TranscriptionService.producer w = Some p
        \/ (TranscriptionService.producer w = None
            /\ TranscriptionService.new_producer env = Ok p) ->
        exists b,
          fst (TranscriptionService.publish_call_transcribed env ev w) = Ok b
          /\ (b = true <->
              exists d md,
                TranscriptionService.model_dump env ev = Ok d
                /\ TranscriptionService.send p
                     TranscriptionService.TOPIC_CALLS_TRANSCRIBED d
                   = Ok (Ok md))).
Proof.
  split.
  - intros st dump ev w p Hp.
    rewrite (publish_sentiment_returns st dump ev w p Hp).
    eexists. split; [reflexivity|].
    apply publication_succeeds.
  - intros env ev w p Hprod.
    rewrite (publish_call_transcribed_returns env ev w p Hprod).
    eexists. split; [reflexivity|].
    apply publication_succeeds.
Qed.

(** C8 as stated fails: [publish_sentiment] raises [RuntimeError] when the
    producer was never initialized, and [publish_call_transcribed] raises
    when no producer exists and the broker refuses the connection. *)
Lemma C8_counterexample_no_producer :
  fst (SentimentService.publish_sentiment SentimentSettings.default
         (fun e => Ok e) sample_sentiment_event
         (world_with (Some constant_pipeline) false None))
  = Raised (RuntimeError
              "Producer not initialized. Call initialize_producer() first.")
  /\ (forall ev,
         fst (TranscriptionService.publish_call_transcribed
                transcription_env_no_broker ev transcription_start)
         = Raised KafkaError).
Proof.
  split; [reflexivity|]. intro ev. reflexivity.
Qed.
